(** * docview: the documentation-preview panel of a code editor

    A shallow embedding of [src/extension.ts].  The extension listens to
    cursor movement, asks the host for the hover entries at the cursor,
    flattens them into one markdown string and writes the rendered page
    into a singleton side panel.

    Layout of the development:
    - [Js]: the fragment of JavaScript values and operators the hover
      flattening sniffs shapes with ([instanceof], [typeof], [in],
      template literals, [Array.prototype.join]);
    - [getHoverInfo], [highlight], [getWebviewContent]: the pure functions;
    - [World], [step], [run]: the extension's module-level variables, the
      host's timers, panels and pending hover queries, and the handlers
      as transitions driven by host events;
    - the theorems, one per numbered property of the specification. *)

From Stdlib Require Import String Ascii List Arith Bool ZArith Lia DecimalString.
Import ListNotations.
Open Scope string_scope.

(** ** Characters that a string literal cannot hold directly *)

Definition dq : string := String (ascii_of_nat 34) EmptyString.
Definition nl : string := String (ascii_of_nat 10) EmptyString.

(** [q [a; b; c]] is [a"b"c]: the pieces of a line, glued by double quotes. *)
Definition q (pieces : list string) : string := String.concat dq pieces.

(** [lines ls] is the text whose lines are [ls]. *)
Definition lines (ls : list string) : string := String.concat nl ls.

(** ** JavaScript values and the operators the source applies to them *)

Module Js.

(** The numbers of the model are the safe integers, which JavaScript
    prints in decimal; fractions, infinities and not-a-number are left
    out. *)
Definition max_safe_integer : Z := 9007199254740991.

Record SafeInteger := {
  int_value : Z;
  int_safe : (Z.abs int_value <=? max_safe_integer)%Z = true }.

(** Host data as it reaches the extension at run time.  [JObject cls props]
    is an object of class [cls] with the listed own properties, the first
    binding of a key being the effective one.  There are no function
    values: a property never holds something callable. *)
Inductive ObjClass := PlainObject | MarkdownStringClass.

#[warnings="-register-all"]
Inductive Value :=
| JUndefined
| JNull
| JBool (b : bool)
| JNumber (n : SafeInteger)
| JString (s : string)
| JObject (cls : ObjClass) (props : list (string * Value))
| JArray (items : list Value).

(** Abrupt completion: the only exception the modelled operators raise. *)
Inductive Error := TypeError.

Inductive Completion (A : Type) :=
| Normal (a : A)
| Throw (e : Error).
Arguments Normal {A} a.
Arguments Throw {A} e.

Definition bind {A B} (c : Completion A) (k : A -> Completion B) : Completion B :=
  match c with
  | Normal a => k a
  | Throw e => Throw e
  end.

Notation "x <- c ;; k" := (bind c (fun x => k))
  (at level 61, c at next level, right associativity).

(** [a && b] with a fallible right operand, evaluated only when [a] holds. *)
Definition and_then (a : bool) (b : Completion bool) : Completion bool :=
  if a then b else Normal false.

(** [typeof v] *)
Definition typeof (v : Value) : string :=
  match v with
  | JUndefined => "undefined"
  | JNull => "object"
  | JBool _ => "boolean"
  | JNumber _ => "number"
  | JString _ => "string"
  | JObject _ _ => "object"
  | JArray _ => "object"
  end.

(** [v instanceof vscode.MarkdownString] *)
Definition instanceof_MarkdownString (v : Value) : bool :=
  match v with
  | JObject MarkdownStringClass _ => true
  | _ => false
  end.

(** [Array.isArray(v)] *)
Definition isArray (v : Value) : bool :=
  match v with
  | JArray _ => true
  | _ => false
  end.

Fixpoint lookup (key : string) (props : list (string * Value)) : option Value :=
  match props with
  | [] => None
  | (k, v) :: rest => if String.eqb key k then Some v else lookup key rest
  end.

Definition index_key (i : nat) : string := NilZero.string_of_uint (Nat.to_uint i).

(** The own keys of an array: its indices and [length]. *)
Definition array_keys (items : list Value) : list string :=
  "length" :: map index_key (seq 0 (length items)).

(** [key in v].  The operator raises a TypeError on anything that is not
    an object, [null] included.  Members inherited from [Object.prototype]
    are left out: the source only asks for [language] and [value], which
    are not among them. *)
Definition has_property (key : string) (v : Value) : Completion bool :=
  match v with
  | JObject _ props =>
      Normal (match lookup key props with Some _ => true | None => false end)
  | JArray items => Normal (existsb (String.eqb key) (array_keys items))
  | _ => Throw TypeError
  end.

(** [v.key] for the keys the source reads, [contents], [value] and
    [language]: a property an object lacks reads as [undefined], as does
    any of these keys on a string, number, boolean or array; reading a
    property of [undefined] or [null] raises a TypeError. *)
Definition get (key : string) (v : Value) : Completion Value :=
  match v with
  | JObject _ props =>
      Normal (match lookup key props with Some x => x | None => JUndefined end)
  | JUndefined | JNull => Throw TypeError
  | _ => Normal JUndefined
  end.

Definition decimal (n : SafeInteger) : string :=
  NilZero.string_of_int (Z.to_int (int_value n)).

(** Whether an object has an own property [toString].  Such a property is
    not callable here, so the conversion of the object to a string finds
    neither a callable [toString] nor a [valueOf] that returns a
    primitive, and raises a TypeError; without it the object inherits
    [Object.prototype.toString]. *)
Definition shadows_toString (props : list (string * Value)) : bool :=
  match lookup "toString" props with
  | Some _ => true
  | None => false
  end.

(** [String(v)], as a template literal or [join] converts its operands.
    Arrays print their elements in order, separated by commas,
    [undefined] and [null] elements as nothing. *)
Fixpoint ToString (v : Value) : Completion string :=
  match v with
  | JUndefined => Normal "undefined"
  | JNull => Normal "null"
  | JBool true => Normal "true"
  | JBool false => Normal "false"
  | JNumber n => Normal (decimal n)
  | JString s => Normal s
  | JObject _ props =>
      if shadows_toString props then Throw TypeError else Normal "[object Object]"
  | JArray items =>
      (fix go (first : bool) (l : list Value) : Completion string :=
         match l with
         | [] => Normal ""
         | x :: rest =>
             s <- match x with
                  | JUndefined | JNull => Normal ""
                  | _ => ToString x
                  end ;;
             r <- go false rest ;;
             Normal ((if first then "" else ",") ++ s ++ r)
         end) true items
  end.

(** One element of [join]: [undefined] and [null] contribute nothing. *)
Definition join_element (x : Value) : Completion string :=
  match x with
  | JUndefined | JNull => Normal ""
  | _ => ToString x
  end.

(** [items.join(sep)]: the loop of [Array.prototype.join], the separator
    being emitted before every element but the first; the conversion of
    an element may throw. *)
Fixpoint join_from (first : bool) (sep : string) (items : list Value)
  : Completion string :=
  match items with
  | [] => Normal ""
  | x :: rest =>
      s <- join_element x ;;
      r <- join_from false sep rest ;;
      Normal ((if first then "" else sep) ++ s ++ r)
  end.

Definition join (sep : string) (items : list Value) : Completion string :=
  join_from true sep items.

(** [items.map(f)] for a callback that may throw: left to right, the
    first exception ends the loop. *)
Fixpoint map_array {B} (f : Value -> Completion B) (items : list Value)
  : Completion (list B) :=
  match items with
  | [] => Normal []
  | x :: rest =>
      y <- f x ;;
      ys <- map_array f rest ;;
      Normal (y :: ys)
  end.

End Js.

Import Js.

(** ** Hover flattening: [getHoverInfo] *)

(** An entry of the host's answer.  Its declared type is [vscode.Hover];
    at run time it is whatever value the host hands over. *)
Definition Hover : Type := Value.

(** An entry that is an object with the given [contents]. *)
Definition hover_with (contents : Value) : Hover :=
  JObject PlainObject [("contents", contents)].

Definition fence : string := "```".

(** The callback of the inner [map]: one fragment to its markdown.  The
    template literal converts the language, then the value. *)
Definition normalizeContent (content : Value) : Completion Value :=
  if instanceof_MarkdownString content then
    get "value" content
  else if String.eqb (typeof content) "string" then
    Normal content
  else
    isCode <- and_then (String.eqb (typeof content) "object")
                (hasLanguage <- has_property "language" content ;;
                 and_then hasLanguage (has_property "value" content)) ;;
    if isCode then
      language <- get "language" content ;;
      languageText <- ToString language ;;
      value <- get "value" content ;;
      valueText <- ToString value ;;
      Normal (JString (fence ++ languageText ++ nl ++ valueText ++ nl ++ fence))
    else
      Normal (JString "").

(** The callback of the outer [map]: an entry whose [contents] is not an
    array falls off the end of the arrow function and yields [undefined]. *)
Definition hoverToMarkdown (hover : Hover) : Completion Value :=
  contents <- get "contents" hover ;;
  match contents with
  | JArray items =>
      fragments <- map_array normalizeContent items ;;
      joined <- join nl fragments ;;
      Normal (JString joined)
  | _ => Normal JUndefined
  end.

Fixpoint map_hovers (hovers : list Hover) : Completion (list Value) :=
  match hovers with
  | [] => Normal []
  | h :: rest =>
      y <- hoverToMarkdown h ;;
      ys <- map_hovers rest ;;
      Normal (y :: ys)
  end.

(** The part of [getHoverInfo] that runs once the host has answered the
    [vscode.executeHoverProvider] command with [hovers] ([None] for no
    entry list at all).  [None] in the result is [undefined]. *)
Definition getHoverInfo (hovers : option (list Hover)) : Completion (option string) :=
  match hovers with
  | Some hs =>
      if (0 <? length hs)%nat then
        entries <- map_hovers hs ;;
        joined <- join (nl ++ nl) entries ;;
        Normal (Some joined)
      else Normal None
  | None => Normal None
  end.

(** ** The renderer's hook and the page *)

(** [md.utils.escapeHtml] of markdown-it, a library outside the
    repository: the four characters that are special in HTML text and
    attribute values are replaced by their entities. *)
Fixpoint escapeHtml (s : string) : string :=
  match s with
  | EmptyString => EmptyString
  | String c rest =>
      (if Ascii.eqb c "&" then "&amp;"
       else if Ascii.eqb c "<" then "&lt;"
       else if Ascii.eqb c ">" then "&gt;"
       else if Ascii.eqb c (ascii_of_nat 34) then "&quot;"
       else String c EmptyString)
      ++ escapeHtml rest
  end.

(** The [highlight] option handed to [new MarkdownIt]; its [console.log]
    is left out. *)
Definition highlight (str lang : string) : string :=
  q ["<pre class="; "language-" ++ lang; "><code class="; "language-" ++ lang; ">"]
  ++ escapeHtml str ++ "</code></pre>".

Definition page_head_lines : list string :=
  [ "";
    "        <!DOCTYPE html>";
    q ["        <html lang="; "en"; ">"];
    "        <head>";
    q ["            <meta charset="; "UTF-8"; ">"];
    q ["            <meta name="; "viewport"; " content="; "width=device-width, initial-scale=1.0"; ">"];
    "            <title>Documentation Viewer</title>";
    q ["            <link href="; "https://cdnjs.cloudflare.com/ajax/libs/prism/1.24.1/themes/prism.min.css"; " rel="; "stylesheet"; " />"];
    "            <style>";
    "                body {";
    "                    font-family: var(--vscode-editor-font-family);";
    "                    font-size: var(--vscode-editor-font-size);";
    "                    padding: 10px;";
    "                    color: var(--vscode-editor-foreground);";
    "                    background-color: var(--vscode-editor-background);";
    "                }";
    q ["                pre[class*="; "language-"; "] {"];
    "                    background-color: var(--vscode-textBlockQuote-background);";
    "                    padding: 10px;";
    "                    border-radius: 3px;";
    "                }";
    q ["                code[class*="; "language-"; "] {"];
    "                    font-family: var(--vscode-editor-font-family);";
    "                    background-color: transparent;";
    "                    padding: 0;";
    "                    border-radius: 0;";
    "                }";
    "            </style>";
    "        </head>";
    "        <body>";
    "            " ].

Definition page_tail_lines : list string :=
  [ "";
    q ["            <script src="; "https://cdnjs.cloudflare.com/ajax/libs/prism/1.24.1/components/prism-core.min.js"; "></script>"];
    q ["            <script src="; "https://cdnjs.cloudflare.com/ajax/libs/prism/1.24.1/plugins/autoloader/prism-autoloader.min.js"; "></script>"];
    "            <script>";
    "                Prism.highlightAll();";
    "            </script>";
    "        </body>";
    "        </html>";
    "    " ].

(** The template literal of [getWebviewContent], before and after its
    one hole. *)
Definition page_head : string := lines page_head_lines.
Definition page_tail : string := lines page_tail_lines.

(** The page shell around a body. *)
Definition page (htmlContent : string) : string :=
  page_head ++ htmlContent ++ page_tail.

(** Truthiness of an optional string: [undefined] and the empty string
    are falsy. *)
Definition truthy (content : option string) : bool :=
  match content with
  | Some s => negb (String.eqb s "")
  | None => false
  end.

(** ** The editor, the panel host and the extension's variables *)

(** [vscode.Position]; [isEqual] compares line and column. *)
Record Position := { line : nat; character : nat }.

Definition isEqual (p other : Position) : bool :=
  Nat.eqb (line p) (line other) && Nat.eqb (character p) (character other).

(** What the handlers read of a [vscode.TextEditor]: the identity of its
    document and the active end of its selection. *)
Record TextEditor := { document_uri : string; selection_active : Position }.

Inductive ViewColumn := Active | Beside | Column (n : nat).

(** The one listener the source registers on a panel:
    [() => { docViewer = undefined; }]. *)
Inductive Listener := ClearDocViewer.

Record WebviewPanel := {
  viewType : string;
  title : string;
  viewColumn : ViewColumn;
  enableScripts : bool;
  retainContextWhenHidden : bool;
  html : string;
  onDidDispose : list Listener;
  disposed : bool }.

(** A pending [setTimeout]: its callback closes over the editor and the
    position of the event that scheduled it. *)
Record Timer := {
  timer_id : nat;
  due : nat;
  timer_editor : TextEditor;
  timer_position : Position }.

(** A hover query the host has not answered yet; the rest of
    [updateDocumentationContent] waits on it. *)
Record HoverQuery := {
  query_id : nat;
  query_uri : string;
  query_position : Position }.

(** The calls into the host that the properties count. *)
Inductive HostCall :=
| ExecuteHoverProvider (query : nat) (uri : string) (position : Position)
| SetHtml (panel : nat) (page : string)
| CreateWebviewPanel (panel : nat)
| Reveal (panel : nat) (column : ViewColumn).

Inductive Disposable :=
| SelectionListener
| Command (name : string)
| DisposeListener (panel : nat).

(** The module variable [docViewer], the variables [lastPosition] and
    [debounceTimer] of [activate], the extension context's
    [subscriptions], and the host: its clock in milliseconds, the active
    editor, the panels ever created (a panel's identity is its index),
    the pending timers in the order they were set, the unanswered hover
    queries, and the log of calls. *)
Record World := {
  docViewer : option nat;
  lastPosition : option Position;
  debounceTimer : option nat;
  subscriptions : list Disposable;
  now : nat;
  activeTextEditor : option TextEditor;
  panels : list WebviewPanel;
  timers : list Timer;
  next_timer : nat;
  queries : list HoverQuery;
  next_query : nat;
  calls : list HostCall }.

Definition set_docViewer (v : option nat) (w : World) : World :=
  {| docViewer := v; lastPosition := lastPosition w; debounceTimer := debounceTimer w; subscriptions := subscriptions w;
     now := now w; activeTextEditor := activeTextEditor w; panels := panels w; timers := timers w;
     next_timer := next_timer w; queries := queries w; next_query := next_query w; calls := calls w |}.

Definition set_lastPosition (v : option Position) (w : World) : World :=
  {| docViewer := docViewer w; lastPosition := v; debounceTimer := debounceTimer w; subscriptions := subscriptions w;
     now := now w; activeTextEditor := activeTextEditor w; panels := panels w; timers := timers w;
     next_timer := next_timer w; queries := queries w; next_query := next_query w; calls := calls w |}.

Definition set_debounceTimer (v : option nat) (w : World) : World :=
  {| docViewer := docViewer w; lastPosition := lastPosition w; debounceTimer := v; subscriptions := subscriptions w;
     now := now w; activeTextEditor := activeTextEditor w; panels := panels w; timers := timers w;
     next_timer := next_timer w; queries := queries w; next_query := next_query w; calls := calls w |}.

Definition set_subscriptions (v : list Disposable) (w : World) : World :=
  {| docViewer := docViewer w; lastPosition := lastPosition w; debounceTimer := debounceTimer w; subscriptions := v;
     now := now w; activeTextEditor := activeTextEditor w; panels := panels w; timers := timers w;
     next_timer := next_timer w; queries := queries w; next_query := next_query w; calls := calls w |}.

Definition set_now (v : nat) (w : World) : World :=
  {| docViewer := docViewer w; lastPosition := lastPosition w; debounceTimer := debounceTimer w; subscriptions := subscriptions w;
     now := v; activeTextEditor := activeTextEditor w; panels := panels w; timers := timers w;
     next_timer := next_timer w; queries := queries w; next_query := next_query w; calls := calls w |}.

Definition set_activeTextEditor (v : option TextEditor) (w : World) : World :=
  {| docViewer := docViewer w; lastPosition := lastPosition w; debounceTimer := debounceTimer w; subscriptions := subscriptions w;
     now := now w; activeTextEditor := v; panels := panels w; timers := timers w;
     next_timer := next_timer w; queries := queries w; next_query := next_query w; calls := calls w |}.

Definition set_panels (v : list WebviewPanel) (w : World) : World :=
  {| docViewer := docViewer w; lastPosition := lastPosition w; debounceTimer := debounceTimer w; subscriptions := subscriptions w;
     now := now w; activeTextEditor := activeTextEditor w; panels := v; timers := timers w;
     next_timer := next_timer w; queries := queries w; next_query := next_query w; calls := calls w |}.

Definition set_timers (v : list Timer) (w : World) : World :=
  {| docViewer := docViewer w; lastPosition := lastPosition w; debounceTimer := debounceTimer w; subscriptions := subscriptions w;
     now := now w; activeTextEditor := activeTextEditor w; panels := panels w; timers := v;
     next_timer := next_timer w; queries := queries w; next_query := next_query w; calls := calls w |}.

Definition set_next_timer (v : nat) (w : World) : World :=
  {| docViewer := docViewer w; lastPosition := lastPosition w; debounceTimer := debounceTimer w; subscriptions := subscriptions w;
     now := now w; activeTextEditor := activeTextEditor w; panels := panels w; timers := timers w;
     next_timer := v; queries := queries w; next_query := next_query w; calls := calls w |}.

Definition set_queries (v : list HoverQuery) (w : World) : World :=
  {| docViewer := docViewer w; lastPosition := lastPosition w; debounceTimer := debounceTimer w; subscriptions := subscriptions w;
     now := now w; activeTextEditor := activeTextEditor w; panels := panels w; timers := timers w;
     next_timer := next_timer w; queries := v; next_query := next_query w; calls := calls w |}.

Definition set_next_query (v : nat) (w : World) : World :=
  {| docViewer := docViewer w; lastPosition := lastPosition w; debounceTimer := debounceTimer w; subscriptions := subscriptions w;
     now := now w; activeTextEditor := activeTextEditor w; panels := panels w; timers := timers w;
     next_timer := next_timer w; queries := queries w; next_query := v; calls := calls w |}.

Definition set_calls (v : list HostCall) (w : World) : World :=
  {| docViewer := docViewer w; lastPosition := lastPosition w; debounceTimer := debounceTimer w; subscriptions := subscriptions w;
     now := now w; activeTextEditor := activeTextEditor w; panels := panels w; timers := timers w;
     next_timer := next_timer w; queries := queries w; next_query := next_query w; calls := v |}.

(** ** Host operations *)

(** [setTimeout(callback, delay)]: the new timer's handle. *)
Definition setTimeout (editor : TextEditor) (position : Position) (delay : nat)
    (w : World) : World * nat :=
  let id := next_timer w in
  let t := {| timer_id := id; due := now w + delay;
              timer_editor := editor; timer_position := position |} in
  (set_next_timer (S id) (set_timers (timers w ++ [t]) w), id).

(** [clearTimeout(id)]: a handle that is no longer pending is ignored. *)
Definition clearTimeout (id : nat) (w : World) : World :=
  set_timers (filter (fun t => negb (Nat.eqb (timer_id t) id)) (timers w)) w.

Fixpoint update_nth {A} (i : nat) (f : A -> A) (l : list A) : list A :=
  match l, i with
  | [], _ => []
  | x :: rest, 0 => f x :: rest
  | x :: rest, S j => x :: update_nth j f rest
  end.

Definition with_html (page : string) (p : WebviewPanel) : WebviewPanel :=
  {| viewType := viewType p; title := title p; viewColumn := viewColumn p;
     enableScripts := enableScripts p;
     retainContextWhenHidden := retainContextWhenHidden p;
     html := page; onDidDispose := onDidDispose p; disposed := disposed p |}.

Definition with_viewColumn (c : ViewColumn) (p : WebviewPanel) : WebviewPanel :=
  {| viewType := viewType p; title := title p; viewColumn := c;
     enableScripts := enableScripts p;
     retainContextWhenHidden := retainContextWhenHidden p;
     html := html p; onDidDispose := onDidDispose p; disposed := disposed p |}.

Definition with_listener (l : Listener) (p : WebviewPanel) : WebviewPanel :=
  {| viewType := viewType p; title := title p; viewColumn := viewColumn p;
     enableScripts := enableScripts p;
     retainContextWhenHidden := retainContextWhenHidden p;
     html := html p; onDidDispose := onDidDispose p ++ [l]; disposed := disposed p |}.

Definition with_disposed (p : WebviewPanel) : WebviewPanel :=
  {| viewType := viewType p; title := title p; viewColumn := viewColumn p;
     enableScripts := enableScripts p;
     retainContextWhenHidden := retainContextWhenHidden p;
     html := html p; onDidDispose := onDidDispose p; disposed := true |}.

(** [vscode.window.createWebviewPanel(viewType, title, column, options)] *)
Definition createWebviewPanel (vt ttl : string) (column : ViewColumn)
    (scripts retain : bool) (w : World) : World * nat :=
  let id := length (panels w) in
  let p := {| viewType := vt; title := ttl; viewColumn := column;
              enableScripts := scripts; retainContextWhenHidden := retain;
              html := ""; onDidDispose := []; disposed := false |} in
  (set_calls (calls w ++ [CreateWebviewPanel id]) (set_panels (panels w ++ [p]) w), id).

(** [panel.reveal(column)] *)
Definition reveal (panel : nat) (column : ViewColumn) (w : World) : World :=
  set_calls (calls w ++ [Reveal panel column])
    (set_panels (update_nth panel (with_viewColumn column) (panels w)) w).

(** [panel.webview.html = page] *)
Definition set_webview_html (panel : nat) (page : string) (w : World) : World :=
  set_calls (calls w ++ [SetHtml panel page])
    (set_panels (update_nth panel (with_html page) (panels w)) w).

(** What the host hands to a command handler as its first argument:
    nothing when the command is run from the command palette, the
    resource of the editor when it is run from the editor's context menu
    (the two places the manifest contributes [docview.open] to), and, for
    a caller that passes it, the extension context the handler's
    signature declares. *)
Inductive CommandArgument :=
| NoArgument
| ResourceArgument (uri : string)
| ContextArgument.

(** The third argument of [onDidDispose]: [undefined], or the array
    [subscriptions] of the extension context. *)
Inductive Disposables := NoDisposables | ContextSubscriptions.

(** [context.subscriptions]: a TypeError on [undefined]; [undefined] on a
    resource, which has no such property. *)
Definition argument_subscriptions (context : CommandArgument) : Completion Disposables :=
  match context with
  | NoArgument => Throw TypeError
  | ResourceArgument _ => Normal NoDisposables
  | ContextArgument => Normal ContextSubscriptions
  end.

(** [panel.onDidDispose(listener, null, disposables)]: the listener is
    attached to the panel, and its registration pushed onto [disposables]
    when that is an array. *)
Definition register_onDidDispose (panel : nat) (l : Listener)
    (disposables : Disposables) (w : World) : World :=
  let w' := set_panels (update_nth panel (with_listener l) (panels w)) w in
  match disposables with
  | ContextSubscriptions =>
      set_subscriptions (subscriptions w' ++ [DisposeListener panel]) w'
  | NoDisposables => w'
  end.

Definition run_listener (l : Listener) (w : World) : World :=
  match l with
  | ClearDocViewer => set_docViewer None w
  end.

(** The user closes a panel: the host disposes it and notifies its
    listeners.  A panel that does not exist or is already disposed is
    left alone. *)
Definition dispose_panel (panel : nat) (w : World) : World :=
  match nth_error (panels w) panel with
  | Some p =>
      if disposed p then w
      else fold_left (fun w' l => run_listener l w') (onDidDispose p)
             (set_panels (update_nth panel with_disposed (panels w)) w)
  | None => w
  end.

(** ** The extension *)

Section Extension.

(** markdown-it's [render], a library outside the repository, as a
    function of the [highlight] option the instance was built with. *)
Variable MarkdownIt_render : (string -> string -> string) -> string -> string.

(** [md.render] *)
Definition md_render : string -> string := MarkdownIt_render highlight.

(** [content ? md.render(content) : ''] *)
Definition htmlContent (content : option string) : string :=
  match content with
  | Some s => if truthy content then md_render s else ""
  | None => ""
  end.

Definition getWebviewContent (content : option string) : string :=
  page (htmlContent content).

(** [updateDocumentationContent] up to its [await]: [getHoverInfo] sends
    the hover query for the editor's document and the position. *)
Definition updateDocumentationContent (editor : TextEditor) (position : Position)
    (w : World) : World :=
  let id := next_query w in
  let query := {| query_id := id; query_uri := document_uri editor;
                  query_position := position |} in
  set_calls (calls w ++ [ExecuteHoverProvider id (document_uri editor) position])
    (set_next_query (S id) (set_queries (queries w ++ [query]) w)).

(** [updateDocumentationContent] after its [await], the host having
    answered with [hovers].  An exception in [getHoverInfo] rejects the
    promise and the rest does not run. *)
Definition updateDocumentationContent_resume (hovers : option (list Hover))
    (w : World) : World :=
  match getHoverInfo hovers with
  | Normal docContent =>
      match docViewer w with
      | Some panel => set_webview_html panel (getWebviewContent docContent) w
      | None => w
      end
  | Throw _ => w
  end.

(** The callback given to [setTimeout]. *)
Definition debounce_callback (t : Timer) (w : World) : World :=
  match docViewer w with
  | None => w
  | Some _ => updateDocumentationContent (timer_editor t) (timer_position t) w
  end.

(** The listener on [onDidChangeTextEditorSelection].  A timer handle is
    an object, so [if (debounceTimer)] holds as soon as one was set, also
    after that timer has fired. *)
Definition onDidChangeTextEditorSelection (w : World) : World :=
  match docViewer w with
  | None => w
  | Some _ =>
      match activeTextEditor w with
      | Some editor =>
          let position := selection_active editor in
          if match lastPosition w with
             | Some last => isEqual position last
             | None => false
             end
          then w
          else
            let w1 := set_lastPosition (Some position) w in
            let w2 := match debounceTimer w1 with
                      | Some t => clearTimeout t w1
                      | None => w1
                      end in
            let (w3, id) := setTimeout editor position 100 w2 in
            set_debounceTimer (Some id) w3
      | None => w
      end
  end.

(** The handler of the command [docview.open], up to its [await].  It is
    registered as it stands, so [context] is the command's first
    argument.  When no panel exists the panel is created and assigned to
    [docViewer] first; the arguments of [onDidDispose] are evaluated
    next, and [context.subscriptions] raises a TypeError when there is
    no argument: the listener is then not attached and the rest of the
    handler does not run.  A [Throw] in the result is the rejection of
    the promise the handler returns. *)
Definition openDocViewer (context : CommandArgument) (w : World)
  : World * Completion unit :=
  let editor := activeTextEditor w in
  let (w1, ensured) :=
    match docViewer w with
    | Some panel => (reveal panel Beside w, Normal tt)
    | None =>
        let (w', panel) :=
          createWebviewPanel "docViewer" "Documentation Viewer" Beside true true w in
        let w'' := set_docViewer (Some panel) w' in
        match argument_subscriptions context with
        | Normal disposables =>
            (register_onDidDispose panel ClearDocViewer disposables w'', Normal tt)
        | Throw e => (w'', Throw e)
        end
    end in
  match ensured with
  | Normal _ =>
      match editor with
      | Some ed => (updateDocumentationContent ed (selection_active ed) w1, Normal tt)
      | None => (w1, Normal tt)
      end
  | Throw e => (w1, Throw e)
  end.

(** The world right after [activate]: nothing recorded, the selection
    listener and the command registered. *)
Definition activate : World :=
  {| docViewer := None; lastPosition := None; debounceTimer := None;
     subscriptions := [SelectionListener; Command "docview.open"];
     now := 0; activeTextEditor := None; panels := []; timers := [];
     next_timer := 0; queries := []; next_query := 0; calls := [] |}.

(** ** Host events *)

Inductive HostEvent :=
| EvSelectionChange (active : option TextEditor)
| EvActiveEditor (active : option TextEditor)
| EvElapse (ms : nat)
| EvCommandOpen (context : CommandArgument)
| EvPanelClosed (panel : nat)
| EvHoverReply (query : nat) (hovers : option (list Hover)).

(** Time passes: the timers that fall due run, in the order they were
    set.  Every timer is set with the same delay, so this is also the
    order of their due times. *)
Definition elapse (ms : nat) (w : World) : World :=
  let deadline := now w + ms in
  let is_due := fun t => Nat.leb (due t) deadline in
  let fired := filter is_due (timers w) in
  let pending := filter (fun t => negb (is_due t)) (timers w) in
  set_now deadline
    (fold_left (fun w' t => debounce_callback t w') fired (set_timers pending w)).

(** The host answers a hover query; an answer to a query that is not
    pending is dropped. *)
Definition hover_reply (query : nat) (hovers : option (list Hover)) (w : World)
  : World :=
  if existsb (fun x => Nat.eqb (query_id x) query) (queries w) then
    updateDocumentationContent_resume hovers
      (set_queries (filter (fun x => negb (Nat.eqb (query_id x) query)) (queries w)) w)
  else w.

Definition step (w : World) (e : HostEvent) : World :=
  match e with
  | EvSelectionChange active =>
      onDidChangeTextEditorSelection (set_activeTextEditor active w)
  | EvActiveEditor active => set_activeTextEditor active w
  | EvElapse ms => elapse ms w
  | EvCommandOpen context => fst (openDocViewer context w)
  | EvPanelClosed panel => dispose_panel panel w
  | EvHoverReply query hovers => hover_reply query hovers w
  end.

Definition run (w : World) (events : list HostEvent) : World :=
  fold_left step events w.

End Extension.

(** ** The hover data as its declared type describes it *)

(** A fragment of a hover entry as the API types it: a markdown string,
    a plain string, or a code block of a language. *)
Inductive Fragment :=
| Markdown (value : string)
| Plain (text : string)
| Code (language value : string).

(** The run-time value of a typed fragment. *)
Definition fragment_value (f : Fragment) : Value :=
  match f with
  | Markdown value => JObject MarkdownStringClass [("value", JString value)]
  | Plain text => JString text
  | Code language value =>
      JObject PlainObject [("language", JString language); ("value", JString value)]
  end.

Definition hover_of (fragments : list Fragment) : Hover :=
  hover_with (JArray (map fragment_value fragments)).

(** The specification's wording of the flattening: markdown and plain
    fragments verbatim, code fragments in a fenced block tagged with their
    language; the fragments of an entry joined by single newlines, the
    entries by a blank line. *)
Definition fragment_markdown_spec (f : Fragment) : string :=
  match f with
  | Markdown value => value
  | Plain text => text
  | Code language value => "```" ++ language ++ nl ++ value ++ nl ++ "```"
  end.

Definition entry_markdown_spec (fragments : list Fragment) : string :=
  String.concat nl (map fragment_markdown_spec fragments).

Definition hovers_markdown_spec (entries : list (list Fragment)) : string :=
  String.concat (nl ++ nl) (map entry_markdown_spec entries).

(** A fragment of one of the three shapes the source looks for, with
    strings in its fields. *)
Definition declared_shape (v : Value) : Prop :=
  (exists props text,
      v = JObject MarkdownStringClass props
      /\ lookup "value" props = Some (JString text))
  \/ (exists text, v = JString text)
  \/ (exists props language text,
         v = JObject PlainObject props
         /\ lookup "language" props = Some (JString language)
         /\ lookup "value" props = Some (JString text)).

(** A fragment other than [null] that is none of the three shapes. *)
Definition unexpected_shape (v : Value) : Prop :=
  v <> JNull
  /\ instanceof_MarkdownString v = false
  /\ typeof v <> "string"
  /\ ~ (has_property "language" v = Normal true
        /\ has_property "value" v = Normal true).

(** What the callbacks of [map] hand to [join] on such fragments. *)
Definition plain (v : Value) : Prop := v = JUndefined \/ exists text, v = JString text.

(** The number of entries in the host's answer, none when there is no
    list at all. *)
Definition entry_count (hovers : option (list Hover)) : nat :=
  match hovers with
  | Some hs => length hs
  | None => 0
  end.

(** The characters of a string. *)
Fixpoint chars (s : string) : list ascii :=
  match s with
  | EmptyString => []
  | String c rest => c :: chars rest
  end.

Definition html_special (c : ascii) : bool :=
  Ascii.eqb c "&" || Ascii.eqb c "<" || Ascii.eqb c ">" || Ascii.eqb c (ascii_of_nat 34).

(** Reading an attribute the way a browser does.  [strip_prefix marker s]
    is what follows [marker] at the start of [s]; [after marker s] what
    follows its first occurrence in [s]; [until_quote s] the text of [s]
    up to its first double quote. *)
Fixpoint strip_prefix (marker s : string) : option string :=
  match marker, s with
  | EmptyString, _ => Some s
  | String a marker', String b s' =>
      if Ascii.eqb a b then strip_prefix marker' s' else None
  | String _ _, EmptyString => None
  end.

Fixpoint after (marker s : string) : option string :=
  match strip_prefix marker s with
  | Some rest => Some rest
  | None =>
      match s with
      | EmptyString => None
      | String _ s' => after marker s'
      end
  end.

Fixpoint until_quote (s : string) : option string :=
  match s with
  | EmptyString => None
  | String c rest =>
      if Ascii.eqb c (ascii_of_nat 34) then Some EmptyString
      else option_map (String c) (until_quote rest)
  end.

(** The value of the first [class] attribute of a piece of HTML: the
    text between the double quote that follows [class=] and the next
    one, which closes the attribute. *)
Definition first_class_attribute (markup : string) : option string :=
  match after ("class=" ++ dq) markup with
  | Some rest => until_quote rest
  | None => None
  end.

Definition no_quote (s : string) : bool :=
  forallb (fun c => negb (Ascii.eqb c (ascii_of_nat 34))) (chars s).

(** A stand-in for markdown-it on which the model can be run: it wraps
    the text in one paragraph, which is what the library does for a line
    of plain words. *)
Definition paragraph_render (hl : string -> string -> string) (s : string) : string :=
  "<p>" ++ escapeHtml s ++ "</p>" ++ nl.

(** ** Bursts of selection changes *)

(** A burst: a first selection change, then further ones, each after a
    gap in milliseconds.  An event carries the editor that is active when
    it fires, and with it the position. *)
Definition burst (first : TextEditor) (rest : list (nat * TextEditor)) : list HostEvent :=
  EvSelectionChange (Some first)
  :: flat_map (fun ge => [EvElapse (fst ge); EvSelectionChange (Some (snd ge))]) rest.

Definition burst_positions (first : TextEditor) (rest : list (nat * TextEditor))
  : list Position :=
  selection_active first :: map (fun ge => selection_active (snd ge)) rest.

(** The editor of the last event of a burst. *)
Definition burst_last (first : TextEditor) (rest : list (nat * TextEditor)) : TextEditor :=
  last (map snd rest) first.

(** Every pending timer is the one [debounceTimer] refers to. *)
Definition tracked (w : World) : Prop :=
  forall t, In t (timers w) -> debounceTimer w = Some (timer_id t).

(** The state a burst is in after a selection change by [editor] that
    was not ignored: seen from the world [w0] the burst started in,
    nothing has been sent or written, the position is recorded, and one
    timer is pending, set for 100ms from now with [editor] and its
    position in its closure. *)
Definition armed (w0 w : World) (editor : TextEditor) : Prop :=
  docViewer w = docViewer w0
  /\ panels w = panels w0
  /\ calls w = calls w0
  /\ queries w = queries w0
  /\ next_query w = next_query w0
  /\ lastPosition w = Some (selection_active editor)
  /\ exists id,
      debounceTimer w = Some id
      /\ timers w = [ {| timer_id := id; due := now w + 100;
                         timer_editor := editor;
                         timer_position := selection_active editor |} ].

(** The hover query an update sends from world [w]. *)
Definition sent_query (w : World) (editor : TextEditor) : HoverQuery :=
  {| query_id := next_query w; query_uri := document_uri editor;
     query_position := selection_active editor |}.

Definition sent_call (w : World) (editor : TextEditor) : HostCall :=
  ExecuteHoverProvider (next_query w) (document_uri editor) (selection_active editor).

(** The panel [openDocViewer] creates, with its dispose listener. *)
Definition fresh_panel : WebviewPanel :=
  {| viewType := "docViewer"; title := "Documentation Viewer"; viewColumn := Beside;
     enableScripts := true; retainContextWhenHidden := true;
     html := ""; onDidDispose := [ClearDocViewer]; disposed := false |}.

(** The panel as [createWebviewPanel] returns it, no listener attached. *)
Definition bare_panel : WebviewPanel :=
  {| viewType := "docViewer"; title := "Documentation Viewer"; viewColumn := Beside;
     enableScripts := true; retainContextWhenHidden := true;
     html := ""; onDidDispose := []; disposed := false |}.

(** The panel a run of the command leaves behind when it had to create
    one. *)
Definition created_panel (context : CommandArgument) : WebviewPanel :=
  match context with
  | NoArgument => bare_panel
  | _ => fresh_panel
  end.

(** The resource the samples pass, as the editor's context menu does. *)
Definition from_menu : CommandArgument := ResourceArgument "a.ts".

(** ** Sample inputs *)

Definition editor_at (uri : string) (l c : nat) : TextEditor :=
  {| document_uri := uri; selection_active := {| line := l; character := c |} |}.

(** A panel opened by the command with no editor active: nothing sent. *)
Definition world_open : World := run paragraph_render activate [EvCommandOpen from_menu].

(** A panel open and one update cycle completed for line 3, column 4 of
    [a.ts]: the position is recorded, no timer or query is pending. *)
Definition world_settled : World :=
  run paragraph_render activate
    [EvCommandOpen from_menu; EvSelectionChange (Some (editor_at "a.ts" 3 4));
     EvElapse 100; EvHoverReply 0 (Some [hover_of [Plain "doc"]])].

(** ** Invariants of the worlds the extension can reach *)

(** Panel [i] exists and has not been disposed. *)
Definition live (w : World) (i : nat) : Prop :=
  exists p, nth_error (panels w) i = Some p /\ disposed p = false.

(** A panel carries the listener that clears [docViewer] or none; a
    panel that is not disposed is the one [docViewer] refers to; and a
    panel [docViewer] refers to is not disposed, or is one that never got
    its listener. *)
Definition singleton (w : World) : Prop :=
  (forall i p, nth_error (panels w) i = Some p ->
               (onDidDispose p = [] \/ onDidDispose p = [ClearDocViewer])
               /\ (disposed p = false -> docViewer w = Some i))
  /\ (forall i, docViewer w = Some i ->
                exists p, nth_error (panels w) i = Some p
                          /\ (disposed p = false \/ onDidDispose p = [])).

(** The panel a call into the host is about. *)
Definition call_panel (c : HostCall) : option nat :=
  match c with
  | ExecuteHoverProvider _ _ _ => None
  | SetHtml panel _ => Some panel
  | CreateWebviewPanel panel => Some panel
  | Reveal panel _ => Some panel
  end.

(** A pending timer is the only one, is the one [debounceTimer] refers
    to, carries the recorded position, and falls due within 100ms. *)
Definition one_timer (w : World) : Prop :=
  forall t, In t (timers w) ->
    timers w = [t]
    /\ debounceTimer w = Some (timer_id t)
    /\ lastPosition w = Some (timer_position t)
    /\ timer_position t = selection_active (timer_editor t)
    /\ now w < due t <= now w + 100.

(** Whatever was written to a panel is a page of the shell. *)
Definition shell_pages (w : World) : Prop :=
  (forall p, In p (panels w) -> html p = "" \/ exists body, html p = page body)
  /\ (forall panel pg, In (SetHtml panel pg) (calls w) -> exists body, pg = page body).

Definition is_query (c : HostCall) : bool :=
  match c with
  | ExecuteHoverProvider _ _ _ => true
  | _ => false
  end.

Definition is_write (c : HostCall) : bool :=
  match c with
  | SetHtml _ _ => true
  | _ => false
  end.

Definition count (f : HostCall -> bool) (cs : list HostCall) : nat :=
  length (filter f cs).

(** What one event does to the panels, to [docViewer] and to the log. *)
Inductive PanelEffect (w w' : World) : Prop :=
| Untouched (sent : list HostCall) :
    panels w' = panels w ->
    docViewer w' = docViewer w ->
    calls w' = (calls w ++ sent)%list ->
    forallb is_query sent = true ->
    length (queries w') <= length (queries w) + length sent ->
    PanelEffect w w'
| Revealed (i : nat) (sent : list HostCall) :
    docViewer w = Some i ->
    docViewer w' = Some i ->
    panels w' = update_nth i (with_viewColumn Beside) (panels w) ->
    calls w' = (calls w ++ Reveal i Beside :: sent)%list ->
    forallb is_query sent = true ->
    length (queries w') <= length (queries w) + length sent ->
    PanelEffect w w'
| Written (i : nat) (body : string) :
    docViewer w = Some i ->
    docViewer w' = Some i ->
    panels w' = update_nth i (with_html (page body)) (panels w) ->
    calls w' = (calls w ++ [SetHtml i (page body)])%list ->
    length (queries w') < length (queries w) ->
    PanelEffect w w'
| Created (context : CommandArgument) (sent : list HostCall) :
    docViewer w = None ->
    docViewer w' = Some (length (panels w)) ->
    panels w' = (panels w ++ [created_panel context])%list ->
    calls w' = (calls w ++ CreateWebviewPanel (length (panels w)) :: sent)%list ->
    forallb is_query sent = true ->
    length (queries w') <= length (queries w) + length sent ->
    PanelEffect w w'
| Closed (k : nat) (p : WebviewPanel) :
    nth_error (panels w) k = Some p ->
    disposed p = false ->
    panels w' = update_nth k with_disposed (panels w) ->
    docViewer w' = match onDidDispose p with [] => docViewer w | _ => None end ->
    calls w' = calls w ->
    queries w' = queries w ->
    PanelEffect w w'.

(** * Properties *)

(** ** Joining *)

Lemma append_empty_r (s : string) : s ++ "" = s.
Proof. induction s as [|c s IH]; simpl; [reflexivity | now rewrite IH]. Qed.

Lemma append_assoc (a b c : string) : (a ++ b) ++ c = a ++ (b ++ c).
Proof. induction a as [|x a IH]; simpl; [reflexivity | now rewrite IH]. Qed.

(** On strings the loop of [join], entered after the first element, emits
    what [String.concat] emits after its head. *)
Lemma join_from_false (sep : string) (texts : list string) :
  join_from false sep (map JString texts)
  = Normal match texts with
           | [] => ""
           | _ => sep ++ String.concat sep texts
           end.
Proof.
  induction texts as [|x rest IH]; [reflexivity|].
  cbn [map join_from join_element ToString bind]. rewrite IH. cbn [bind].
  destruct rest as [|y rest']; cbn [String.concat].
  - now rewrite append_empty_r.
  - reflexivity.
Qed.

Lemma join_concat (sep : string) (texts : list string) :
  join sep (map JString texts) = Normal (String.concat sep texts).
Proof.
  unfold join. destruct texts as [|x rest]; [reflexivity|].
  cbn [map join_from join_element ToString bind]. rewrite join_from_false.
  cbn [bind]. destruct rest as [|y rest']; cbn [String.concat].
  - now rewrite append_empty_r.
  - reflexivity.
Qed.

Lemma normalizeContent_fragment (f : Fragment) :
  normalizeContent (fragment_value f) = Normal (JString (fragment_markdown_spec f)).
Proof. destruct f; reflexivity. Qed.

Lemma map_array_fragments (fragments : list Fragment) :
  map_array normalizeContent (map fragment_value fragments)
  = Normal (map JString (map fragment_markdown_spec fragments)).
Proof.
  induction fragments as [|f rest IH]; [reflexivity|].
  cbn [map map_array]. rewrite normalizeContent_fragment. cbn [bind].
  rewrite IH. reflexivity.
Qed.

Lemma hoverToMarkdown_typed (fragments : list Fragment) :
  hoverToMarkdown (hover_of fragments)
  = Normal (JString (entry_markdown_spec fragments)).
Proof.
  unfold hoverToMarkdown, hover_of, entry_markdown_spec.
  change (get "contents" (hover_with ?c)) with (Normal c). cbn [bind].
  rewrite map_array_fragments. cbn [bind].
  rewrite join_concat. reflexivity.
Qed.

Lemma map_hovers_typed (entries : list (list Fragment)) :
  map_hovers (map hover_of entries)
  = Normal (map JString (map entry_markdown_spec entries)).
Proof.
  induction entries as [|fs rest IH]; [reflexivity|].
  cbn [map map_hovers]. rewrite hoverToMarkdown_typed. cbn [bind].
  rewrite IH. reflexivity.
Qed.

(** C5. For a non-empty list of hover entries, [getHoverInfo] returns the
    fragments of each entry joined by single newlines and the entries
    joined by a blank line; the entries ["**bold**"] and ["plain"] give
    exactly "**bold**\n\nplain". *)
Theorem getHoverInfo_joins (entries : list (list Fragment)) :
  entries <> [] ->
  getHoverInfo (Some (map hover_of entries))
  = Normal (Some (hovers_markdown_spec entries))
  /\ getHoverInfo (Some [hover_of [Plain "**bold**"]; hover_of [Plain "plain"]])
     = Normal (Some ("**bold**" ++ nl ++ nl ++ "plain")).
Proof.
  intros Hne. split; [|reflexivity].
  unfold getHoverInfo. rewrite length_map.
  destruct entries as [|fs rest]; [congruence|].
  cbn [length Nat.ltb Nat.leb].
  rewrite map_hovers_typed. cbn [bind].
  rewrite join_concat. reflexivity.
Qed.

Lemma getHoverInfo_joins_witness :
  [[Markdown "# f"; Code "ts" "let x"]; [Plain "note"]] <> []
  /\ getHoverInfo (Some (map hover_of [[Markdown "# f"; Code "ts" "let x"]; [Plain "note"]]))
     = Normal (Some ("# f" ++ nl ++ "```ts" ++ nl ++ "let x" ++ nl ++ "```"
                     ++ nl ++ nl ++ "note")).
Proof.
  split; [discriminate|].
  exact (proj1 (getHoverInfo_joins
                  [[Markdown "# f"; Code "ts" "let x"]; [Plain "note"]]
                  ltac:(discriminate))).
Defined.

(** C6. A markdown fragment and a plain string pass through verbatim; an
    object with a [language] and a [value] becomes a fenced block tagged
    with the language; language "python" and value "print(1)" give the
    block tagged python around print(1). *)
Theorem normalizeContent_shapes :
  (forall props value,
      lookup "value" props = Some (JString value) ->
      normalizeContent (JObject MarkdownStringClass props) = Normal (JString value))
  /\ (forall text, normalizeContent (JString text) = Normal (JString text))
  /\ (forall props language value,
         lookup "language" props = Some (JString language) ->
         lookup "value" props = Some (JString value) ->
         normalizeContent (JObject PlainObject props)
         = Normal (JString ("```" ++ language ++ nl ++ value ++ nl ++ "```")))
  /\ normalizeContent
       (JObject PlainObject [("language", JString "python"); ("value", JString "print(1)")])
     = Normal (JString ("```python" ++ nl ++ "print(1)" ++ nl ++ "```")).
Proof.
  repeat split.
  - intros props value Hv. unfold normalizeContent. cbn. now rewrite Hv.
  - intros props language value Hl Hv. unfold normalizeContent. cbn.
    rewrite Hl, Hv. reflexivity.
Qed.

Lemma normalizeContent_shapes_witness :
  normalizeContent
    (JObject MarkdownStringClass [("isTrusted", JBool false); ("value", JString "*x*")])
  = Normal (JString "*x*")
  /\ normalizeContent
       (JObject PlainObject [("value", JString "1 + 1"); ("language", JString "ts")])
     = Normal (JString ("```ts" ++ nl ++ "1 + 1" ++ nl ++ "```")).
Proof.
  destruct normalizeContent_shapes as (Hmd & _ & Hcode & _).
  split.
  - apply Hmd. reflexivity.
  - apply Hcode; reflexivity.
Defined.

(** ** Shapes outside the declared type *)

Lemma normalizeContent_unexpected (v : Value) :
  unexpected_shape v -> normalizeContent v = Normal (JString "").
Proof.
  intros (Hnull & Hmd & Hstr & Hcode). unfold normalizeContent. rewrite Hmd.
  destruct v as [| |b|n|s|cls props|items]; try reflexivity; try congruence.
  - cbn in Hstr. congruence.
  - cbn in *. destruct (lookup "language" props); cbn; [|reflexivity].
    destruct (lookup "value" props); cbn; [|reflexivity].
    exfalso. apply Hcode. split; reflexivity.
  - cbn [typeof String.eqb Ascii.eqb Bool.eqb and_then] in *.
    destruct (has_property "language" (JArray items)) as [[|]|] eqn:Hl;
      cbn in Hl; try discriminate; cbn [bind and_then]; [|reflexivity].
    destruct (has_property "value" (JArray items)) as [[|]|] eqn:Hv;
      cbn in Hv; try discriminate; cbn [bind and_then]; [|reflexivity].
    exfalso. apply Hcode. split; reflexivity.
Qed.

Lemma normalizeContent_declared (v : Value) :
  declared_shape v -> exists text, normalizeContent v = Normal (JString text).
Proof.
  intros [(props & text & -> & Hv)|[(text & ->)|(props & language & text & -> & Hl & Hv)]];
    unfold normalizeContent; cbn.
  - rewrite Hv. eexists; reflexivity.
  - eexists; reflexivity.
  - rewrite Hl, Hv. cbn. eexists; reflexivity.
Qed.

Lemma map_array_tolerated (items : list Value) :
  (forall v, In v items -> declared_shape v \/ unexpected_shape v) ->
  exists texts, map_array normalizeContent items = Normal (map JString texts).
Proof.
  induction items as [|x rest IH]; intros Hall.
  - exists []. reflexivity.
  - assert (Hx : exists text, normalizeContent x = Normal (JString text)).
    { destruct (Hall x (or_introl eq_refl)) as [Hd|Hu].
      - now apply normalizeContent_declared.
      - exists "". now apply normalizeContent_unexpected. }
    destruct Hx as [text Hx].
    destruct IH as [texts Hrest]; [intros v Hin; apply Hall; now right|].
    exists (text :: texts). cbn [map_array map]. rewrite Hx. cbn [bind].
    rewrite Hrest. reflexivity.
Qed.

Lemma join_plain (sep : string) (items : list Value) :
  Forall plain items -> exists joined, join sep items = Normal joined.
Proof.
  unfold join. generalize true.
  induction items as [|x rest IH]; intros first Hall; [eexists; reflexivity|].
  inversion Hall as [|? ? Hx Hrest]; subst.
  destruct (IH false Hrest) as [r Hr].
  cbn [join_from]. destruct Hx as [->|[text ->]]; cbn; rewrite Hr; eexists; reflexivity.
Qed.

Lemma hoverToMarkdown_tolerated (h : Hover) :
  h <> JNull -> h <> JUndefined ->
  (forall items v, get "contents" h = Normal (JArray items) -> In v items ->
                   declared_shape v \/ unexpected_shape v) ->
  exists y, hoverToMarkdown h = Normal y /\ plain y.
Proof.
  intros Hnull Hundef Hall. unfold hoverToMarkdown.
  destruct (get "contents" h) as [c|e] eqn:Hc.
  - cbn [bind].
    destruct c as [| |b|n|s|cls props|items];
      try (exists JUndefined; split; [reflexivity | now left]).
    destruct (map_array_tolerated items (fun v => Hall items v eq_refl)) as [texts Hm].
    rewrite Hm. cbn [bind]. rewrite join_concat. cbn [bind].
    eexists. split; [reflexivity|]. right. eexists; reflexivity.
  - destruct h; cbn in Hc; congruence.
Qed.

Lemma map_hovers_tolerated (hovers : list Hover) :
  (forall h, In h hovers -> h <> JNull /\ h <> JUndefined) ->
  (forall h items v, In h hovers -> get "contents" h = Normal (JArray items) ->
                     In v items -> declared_shape v \/ unexpected_shape v) ->
  exists entries, map_hovers hovers = Normal entries /\ Forall plain entries.
Proof.
  induction hovers as [|h rest IH]; intros Hentries Hall.
  - exists []. split; [reflexivity | constructor].
  - destruct (Hentries h (or_introl eq_refl)) as [Hnull Hundef].
    destruct (hoverToMarkdown_tolerated h Hnull Hundef) as (y & Hy & Hplain).
    { intros items v. apply Hall. now left. }
    destruct IH as (ys & Hys & Hplains).
    { intros h' Hin. apply Hentries. now right. }
    { intros h' items v Hin. apply Hall. now right. }
    exists (y :: ys). cbn [map_hovers]. rewrite Hy. cbn [bind]. rewrite Hys.
    split; [reflexivity | now constructor].
Qed.

(** C10, amended. A fragment other than [null] that is neither a
    markdown object, nor a string, nor an object with both a [language]
    and a [value] normalizes to the empty string; and [getHoverInfo]
    raises nothing on an answer whose entries are neither [null] nor
    [undefined] and whose fragments are each such a value or of one of
    the three shapes with strings in its fields. *)
Theorem normalizeContent_unexpected_shape :
  (forall v,
      v <> JNull ->
      instanceof_MarkdownString v = false ->
      typeof v <> "string" ->
      ~ (has_property "language" v = Normal true
         /\ has_property "value" v = Normal true) ->
      normalizeContent v = Normal (JString ""))
  /\ (forall hovers,
         (forall h, In h hovers -> h <> JNull /\ h <> JUndefined) ->
         (forall h items v,
             In h hovers -> get "contents" h = Normal (JArray items) -> In v items ->
             declared_shape v \/ unexpected_shape v) ->
         exists r, getHoverInfo (Some hovers) = Normal r).
Proof.
  split.
  - intros v Hnull Hmd Hstr Hcode. apply normalizeContent_unexpected.
    repeat split; assumption.
  - intros hovers Hentries Hall. unfold getHoverInfo.
    match goal with |- context [if ?c then _ else _] => destruct c end;
      [|eexists; reflexivity].
    destruct (map_hovers_tolerated hovers Hentries Hall) as (entries & Hm & Hplain).
    rewrite Hm. cbn [bind].
    destruct (join_plain (nl ++ nl) entries Hplain) as [joined Hj].
    rewrite Hj. eexists; reflexivity.
Qed.

Lemma normalizeContent_unexpected_shape_witness :
  normalizeContent (JObject PlainObject [("language", JString "c")]) = Normal (JString "")
  /\ exists r,
      getHoverInfo
        (Some [ hover_with (JArray [JBool true; JUndefined; JString "text"]);
                hover_with (JString "loose") ]) = Normal r.
Proof.
  destruct normalizeContent_unexpected_shape as [Hshape Htotal].
  split.
  - apply Hshape.
    + discriminate.
    + reflexivity.
    + discriminate.
    + intros [_ Hv]. discriminate Hv.
  - apply Htotal.
    + intros h [<-|[<-|[]]]; split; discriminate.
    + intros h items v [<-|[<-|[]]] Hc Hin; [|discriminate Hc].
      injection Hc as <-.
      destruct Hin as [<-|[<-|[<-|[]]]].
      * right. repeat split; try discriminate. intros [H _]. discriminate H.
      * right. repeat split; try discriminate. intros [H _]. discriminate H.
      * left. right. left. eexists; reflexivity.
Defined.

(** C10 as first stated fails on [null]: it is none of the three shapes,
    [typeof] calls it an object, and the [in] operator raises a TypeError
    on it, which [getHoverInfo] lets through.  Nor is [null] the only
    data it fails on: the template literal raises a TypeError on a
    language that cannot be converted to a string, and reading the
    [contents] of an entry that is [null] raises one too. *)
Lemma normalizeContent_null_throws :
  instanceof_MarkdownString JNull = false
  /\ typeof JNull <> "string"
  /\ ~ (has_property "language" JNull = Normal true
        /\ has_property "value" JNull = Normal true)
  /\ normalizeContent JNull = Throw TypeError
  /\ normalizeContent JNull <> Normal (JString "")
  /\ getHoverInfo (Some [ hover_with (JArray [JNull]) ]) = Throw TypeError
  /\ getHoverInfo
       (Some [ hover_with
                 (JArray [ JObject PlainObject
                             [("language", JObject PlainObject [("toString", JString "x")]);
                              ("value", JString "v")] ]) ])
     = Throw TypeError
  /\ getHoverInfo (Some [ JNull ]) = Throw TypeError.
Proof.
  repeat match goal with |- _ /\ _ => split end; try discriminate; try reflexivity.
  intros [H _]. discriminate H.
Qed.

(** ** The renderer's hook and the page *)

Lemma chars_app (a b : string) : chars (a ++ b) = (chars a ++ chars b)%list.
Proof. induction a as [|c a IH]; simpl; [reflexivity | now rewrite IH]. Qed.

(** What [escapeHtml] leaves of the special characters is the ampersand
    that opens an entity. *)
Lemma escapeHtml_no_markup (s : string) (c : ascii) :
  In c (chars (escapeHtml s)) -> html_special c = true -> c = "&"%char.
Proof.
  induction s as [|x s IH]; simpl; [tauto|].
  rewrite chars_app. intros Hin Hsp. apply in_app_or in Hin.
  destruct Hin as [Hin|Hin]; [|now apply IH].
  unfold html_special in Hsp.
  destruct (Ascii.eqb x "&") eqn:E1; [|destruct (Ascii.eqb x "<") eqn:E2;
    [|destruct (Ascii.eqb x ">") eqn:E3; [|destruct (Ascii.eqb x (ascii_of_nat 34)) eqn:E4]]];
    simpl in Hin;
    try (repeat (destruct Hin as [Hin|Hin]; [subst c; try reflexivity; discriminate Hsp|]);
         contradiction).
  destruct Hin as [Hin|[]]. subst c.
  rewrite E1, E2, E3, E4 in Hsp. discriminate.
Qed.

(** Text without special characters is left as it is. *)
Lemma escapeHtml_plain (s : string) :
  forallb (fun c => negb (html_special c)) (chars s) = true -> escapeHtml s = s.
Proof.
  induction s as [|x s IH]; simpl; [reflexivity|].
  intros H. apply andb_prop in H. destruct H as [Hx Hs].
  unfold html_special in Hx.
  destruct (Ascii.eqb x "&"); [discriminate|].
  destruct (Ascii.eqb x "<"); [discriminate|].
  destruct (Ascii.eqb x ">"); [discriminate|].
  destruct (Ascii.eqb x (ascii_of_nat 34)); [discriminate|].
  simpl. now rewrite IH.
Qed.

(** The first [class] attribute of the hook's result ends where the
    language has its first double quote, or where it ends. *)
Lemma highlight_class_attribute (str lang tail : string) :
  no_quote lang = true ->
  first_class_attribute
    (q ["<pre class="; "language-" ++ lang ++ tail] ++ str)
  = match until_quote (tail ++ str) with
    | Some more => Some ("language-" ++ lang ++ more)
    | None => None
    end.
Proof.
  intros Hlang. unfold first_class_attribute, q. cbn.
  rewrite !append_assoc.
  induction lang as [|c lang IH]; cbn.
  - destruct (until_quote (tail ++ str)); reflexivity.
  - unfold no_quote in Hlang. cbn in Hlang. apply andb_prop in Hlang.
    destruct Hlang as [Hc Hlang]. apply negb_true_iff in Hc. rewrite Hc.
    specialize (IH Hlang).
    destruct (until_quote (lang ++ tail ++ str)) as [more|]; cbn in *.
    + destruct (until_quote (tail ++ str)); [|discriminate].
      injection IH as ->. reflexivity.
    + destruct (until_quote (tail ++ str)); [discriminate | reflexivity].
Qed.

Lemma length_append (a b : string) :
  String.length (a ++ b) = String.length a + String.length b.
Proof. induction a as [|c a IH]; cbn; [reflexivity | now rewrite IH]. Qed.

(** For content that is present and not empty, the body of the page is
    what markdown-it renders with this hook. *)
Lemma htmlContent_present (render : (string -> string -> string) -> string -> string)
    (s : string) :
  s <> "" -> htmlContent render (Some s) = render highlight s.
Proof.
  intros Hs. unfold htmlContent, truthy, md_render.
  destruct (String.eqb s "") eqn:E; [apply String.eqb_eq in E; contradiction|].
  reflexivity.
Qed.

(** X15. For content that is present and not empty the page body is what
    markdown-it renders with the hook of the source; with no content it
    is empty.  The hook returns a [pre]/[code] pair around the escaped
    code and nothing else, opening with [<pre]; when the declared
    language holds no double quote, the class attribute reads
    [language-] followed by that language. *)
Theorem highlight_pre_code (render : (string -> string -> string) -> string -> string)
    (content str lang : string) :
  (content <> "" ->
   getWebviewContent render (Some content)
   = page_head ++ render highlight content ++ page_tail)
  /\ htmlContent render None = ""
  /\ highlight str lang
     = "<pre class=" ++ dq ++ "language-" ++ lang ++ dq
       ++ "><code class=" ++ dq ++ "language-" ++ lang ++ dq ++ ">"
       ++ escapeHtml str ++ "</code></pre>"
  /\ prefix "<pre" (highlight str lang) = true
  /\ (no_quote lang = true ->
      first_class_attribute (highlight str lang) = Some ("language-" ++ lang))
  /\ (forall c, In c (chars (escapeHtml str)) -> html_special c = true -> c = "&"%char)
  /\ (forallb (fun c => negb (html_special c)) (chars str) = true -> escapeHtml str = str).
Proof.
  split; [|split; [reflexivity|split; [|split; [reflexivity|split; [|split]]]]].
  - intros Hc. unfold getWebviewContent, page. now rewrite htmlContent_present.
  - unfold highlight, q. cbn [String.concat].
    repeat rewrite append_assoc. reflexivity.
  - intros Hlang.
    assert (Hshape : highlight str lang
                     = q ["<pre class="; "language-" ++ lang ++ ""]
                       ++ (dq ++ "><code class=" ++ dq ++ "language-" ++ lang ++ dq ++ ">"
                           ++ escapeHtml str ++ "</code></pre>")).
    { unfold highlight, q. cbn [String.concat].
      rewrite append_empty_r. repeat rewrite append_assoc. reflexivity. }
    rewrite Hshape, (highlight_class_attribute _ lang "" Hlang).
    cbn. now rewrite append_empty_r.
  - apply escapeHtml_no_markup.
  - apply escapeHtml_plain.
Qed.

(** C8. At the inputs on which the code departs from it: a fenced block
    whose declared language holds a double quote.  The hook splices the
    language into the class attribute as it is, while it escapes the
    code; the attribute therefore ends at the quote, its value is
    [language-] followed by the part of the language before the quote,
    and the rest of the language lands in the tag outside it. *)
Theorem highlight_language_unescaped (str before rest : string) :
  no_quote before = true ->
  first_class_attribute (highlight str (before ++ dq ++ rest))
  = Some ("language-" ++ before)
  /\ first_class_attribute (highlight str (before ++ dq ++ rest))
     <> Some ("language-" ++ before ++ dq ++ rest)
  /\ highlight "x" ("a" ++ dq ++ "b")
     = "<pre class=" ++ dq ++ "language-a" ++ dq ++ "b" ++ dq
       ++ "><code class=" ++ dq ++ "language-a" ++ dq ++ "b" ++ dq
       ++ ">x</code></pre>".
Proof.
  intros Hbefore.
  assert (Hcut : first_class_attribute (highlight str (before ++ dq ++ rest))
                 = Some ("language-" ++ before)).
  { assert (Hshape : highlight str (before ++ dq ++ rest)
                     = q ["<pre class="; "language-" ++ before ++ dq ++ rest]
                       ++ (dq ++ "><code class=" ++ dq ++ "language-"
                           ++ (before ++ dq ++ rest) ++ dq ++ ">"
                           ++ escapeHtml str ++ "</code></pre>")).
    { unfold highlight, q. cbn [String.concat].
      repeat rewrite append_assoc. reflexivity. }
    rewrite Hshape, (highlight_class_attribute _ before (dq ++ rest) Hbefore).
    cbn. now rewrite append_empty_r. }
  split; [exact Hcut|]. split; [|reflexivity].
  rewrite Hcut. intros Heq. injection Heq as Heq.
  apply (f_equal String.length) in Heq.
  rewrite !length_append in Heq. cbn in Heq. lia.
Qed.

(** C9. The empty string and the absent value give the same page, whatever
    the renderer: the empty string never reaches it. *)
Theorem getWebviewContent_empty_is_absent
    (render render' : (string -> string -> string) -> string -> string) :
  getWebviewContent render (Some "") = getWebviewContent render' None.
Proof. reflexivity. Qed.

(** ** Panels as a list *)

Lemma update_nth_length {A} (i : nat) (f : A -> A) (l : list A) :
  length (update_nth i f l) = length l.
Proof.
  revert i. induction l as [|x l IH]; intros [|i]; simpl; auto.
Qed.

Lemma nth_error_update_nth {A} (i : nat) (f : A -> A) (l : list A) (x : A) :
  nth_error l i = Some x -> nth_error (update_nth i f l) i = Some (f x).
Proof.
  revert i. induction l as [|y l IH]; intros [|i]; simpl; try discriminate.
  - now intros [= ->].
  - apply IH.
Qed.

Lemma update_nth_last {A} (f : A -> A) (l : list A) (x : A) :
  update_nth (length l) f (l ++ [x]) = (l ++ [f x])%list.
Proof. induction l as [|y l IH]; simpl; [reflexivity | now rewrite IH]. Qed.

Lemma nth_error_last {A} (l : list A) (x : A) :
  nth_error (l ++ [x]) (length l) = Some x.
Proof. induction l as [|y l IH]; simpl; auto. Qed.

Section Properties.

Variable render : (string -> string -> string) -> string -> string.


Lemma debounce_callback_active (t : Timer) (a : option TextEditor) (w : World) :
  debounce_callback t (set_activeTextEditor a w)
  = set_activeTextEditor a (debounce_callback t w).
Proof. destruct w as [[p|] ? ? ? ? ? ? ? ? ? ? ?]; reflexivity. Qed.

Lemma fire_all_active (fired : list Timer) (a : option TextEditor) (w : World) :
  fold_left (fun w' t => debounce_callback t w') fired (set_activeTextEditor a w)
  = set_activeTextEditor a (fold_left (fun w' t => debounce_callback t w') fired w).
Proof.
  revert w. induction fired as [|t fired IH]; intros w; [reflexivity|].
  cbn [fold_left]. rewrite debounce_callback_active. apply IH.
Qed.

(** The timers do not look at the active editor. *)
Lemma elapse_active (ms : nat) (a : option TextEditor) (w : World) :
  elapse ms (set_activeTextEditor a w) = set_activeTextEditor a (elapse ms w).
Proof.
  unfold elapse.
  change (timers (set_activeTextEditor a w)) with (timers w).
  change (now (set_activeTextEditor a w)) with (now w).
  change (set_timers ?l (set_activeTextEditor a w)) with (set_activeTextEditor a (set_timers l w)).
  rewrite fire_all_active. reflexivity.
Qed.

(** C2. A selection change at the recorded position, compared by line and
    column, changes nothing but the host's note of the active editor: no
    query is sent, the recorded position stays, the pending timer stays. *)
Theorem selection_at_recorded_position_ignored (w : World) (active : TextEditor)
    (recorded : Position) :
  lastPosition w = Some recorded ->
  line (selection_active active) = line recorded ->
  character (selection_active active) = character recorded ->
  let w' := step render w (EvSelectionChange (Some active)) in
  w' = set_activeTextEditor (Some active) w
  /\ calls w' = calls w
  /\ queries w' = queries w
  /\ lastPosition w' = Some recorded
  /\ timers w' = timers w
  /\ debounceTimer w' = debounceTimer w
  /\ forall ms, calls (step render w' (EvElapse ms)) = calls (step render w (EvElapse ms)).
Proof.
  intros Hlast Hline Hchar.
  assert (Heq : step render w (EvSelectionChange (Some active))
                = set_activeTextEditor (Some active) w).
  { unfold step, onDidChangeTextEditorSelection.
    destruct w; cbn in *. subst.
    destruct docViewer0; [|reflexivity].
    unfold isEqual. rewrite Hline, Hchar, !Nat.eqb_refl. reflexivity. }
  cbv zeta. rewrite Heq. repeat split; try assumption.
  intros ms. cbn [step]. now rewrite elapse_active.
Qed.

(** ** Replies and closed panels *)

(** The continuation of an update whose query is pending, run with a
    panel open: one write, to the panel [docViewer] refers to. *)
Lemma hover_reply_writes (w : World) (query panel : nat)
    (hovers : option (list Hover)) (docContent : option string) :
  (exists x, In x (queries w) /\ query_id x = query) ->
  docViewer w = Some panel ->
  getHoverInfo hovers = Normal docContent ->
  let w' := hover_reply render query hovers w in
  calls w' = (calls w ++ [SetHtml panel (getWebviewContent render docContent)])%list
  /\ panels w' = update_nth panel (with_html (getWebviewContent render docContent)) (panels w)
  /\ docViewer w' = Some panel
  /\ timers w' = timers w.
Proof.
  intros [x [Hin Hid]] Hopen Hinfo. unfold hover_reply.
  assert (Hex : existsb (fun x => Nat.eqb (query_id x) query) (queries w) = true).
  { apply existsb_exists. exists x. split; [exact Hin | now apply Nat.eqb_eq]. }
  rewrite Hex. unfold updateDocumentationContent_resume. rewrite Hinfo.
  destruct w; cbn in *. subst. repeat split.
Qed.

Lemma fire_all_closed (fired : list Timer) (w : World) :
  docViewer w = None ->
  fold_left (fun w' t => debounce_callback t w') fired w = w.
Proof.
  intros Hclosed. induction fired as [|t fired IH]; [reflexivity|].
  cbn [fold_left]. unfold debounce_callback at 2. rewrite Hclosed. exact IH.
Qed.



(** C3. At the input on which the code departs from it: the command run
    from the palette, with no argument, while no panel exists.  The
    panel is created and assigned to [docViewer], then reading
    [context.subscriptions] raises a TypeError: no dispose listener is
    attached and, even with an editor active, no hover query is sent.
    Closing that panel leaves [docViewer] set, and every later run of
    the command reveals the disposed panel instead of creating one. *)
Theorem open_from_palette_attaches_nothing (w : World) :
  docViewer w = None ->
  let n := length (panels w) in
  let w' := step render w (EvCommandOpen NoArgument) in
  let closed := step render w' (EvPanelClosed n) in
  snd (openDocViewer NoArgument w) = Throw TypeError
  /\ docViewer w' = Some n
  /\ panels w' = (panels w ++ [bare_panel])%list
  /\ calls w' = (calls w ++ [CreateWebviewPanel n])%list
  /\ queries w' = queries w
  /\ docViewer closed = Some n
  /\ nth_error (panels closed) n = Some (with_disposed bare_panel)
  /\ forall context,
      let again := step render closed (EvCommandOpen context) in
      docViewer again = Some n
      /\ length (panels again) = length (panels closed)
      /\ exists sent, calls again = (calls closed ++ Reveal n Beside :: sent)%list.
Proof.
  intros Hclosed. cbv zeta. unfold step, openDocViewer. rewrite Hclosed.
  destruct w as [dv lp dt subs nw ae ps ts nt qs nq cs]; cbn in *. subst dv.
  split; [reflexivity|]. split; [reflexivity|]. split; [reflexivity|].
  split; [reflexivity|]. split; [reflexivity|].
  unfold dispose_panel. cbn. rewrite nth_error_last. cbn.
  rewrite update_nth_last. cbn. rewrite nth_error_last.
  split; [reflexivity|]. split; [reflexivity|].
  intros context. destruct ae as [ed|]; cbn;
    (split; [reflexivity|]); (split; [apply update_nth_length|]);
    eexists; rewrite <- ?app_assoc; reflexivity.
Qed.

(** ** The debounce *)

Lemma isEqual_eq (p other : Position) : isEqual p other = true <-> p = other.
Proof.
  unfold isEqual. rewrite andb_true_iff, !Nat.eqb_eq.
  destruct p, other; cbn. split.
  - intros [-> ->]. reflexivity.
  - intros [= -> ->]. auto.
Qed.

Lemma isEqual_neq (p other : Position) : p <> other -> isEqual p other = false.
Proof.
  intros Hne. destruct (isEqual p other) eqn:E; [|reflexivity].
  apply isEqual_eq in E. contradiction.
Qed.

Lemma last_cons {A} (x d : A) (l : list A) : last (x :: l) d = last l x.
Proof.
  revert x d. induction l as [|y l IH]; intros x d; [reflexivity|].
  change (last (x :: y :: l) d) with (last (y :: l) d).
  now rewrite !IH.
Qed.

(** Clearing the timer [debounceTimer] refers to leaves none pending. *)
Lemma clear_tracked (ts : list Timer) (id : nat) :
  (forall t, In t ts -> Some id = Some (timer_id t)) ->
  filter (fun t => negb (Nat.eqb (timer_id t) id)) ts = [].
Proof.
  induction ts as [|t ts IH]; intros Hall; [reflexivity|].
  cbn [filter]. assert (Hid : Some id = Some (timer_id t)) by (apply Hall; now left).
  injection Hid as ->. rewrite Nat.eqb_refl. cbn [negb].
  apply IH. intros t' Hin. apply Hall. now right.
Qed.

(** [tracked] holds after [activate] and every event keeps it: there is
    never more than the one timer [debounceTimer] refers to. *)
Lemma tracked_step (w : World) (e : HostEvent) : tracked w -> tracked (step render w e).
Proof.
  unfold tracked. intros Htr. destruct e as [a|a|ms|context|panel|query hovers]; cbn [step].
  - unfold onDidChangeTextEditorSelection.
    destruct w as [[pn|] lp dt subs nw ae ps ts nt qs nq cs]; cbn in *; [|exact Htr].
    destruct a as [ed|]; [|exact Htr].
    destruct (match lp with Some last => isEqual _ last | None => false end);
      [exact Htr|].
    destruct dt as [id|]; cbn.
    + rewrite clear_tracked by exact Htr. cbn. intros t [<-|[]]. reflexivity.
    + destruct ts as [|t0 ts]; [|specialize (Htr t0 (or_introl eq_refl)); discriminate].
      cbn. intros t [<-|[]]. reflexivity.
  - exact Htr.
  - unfold elapse. cbv zeta.
    set (fired := filter _ (timers w)).
    assert (Hgen : forall l w0,
               timers (fold_left (fun w' t => debounce_callback t w') l w0) = timers w0
               /\ debounceTimer (fold_left (fun w' t => debounce_callback t w') l w0)
                  = debounceTimer w0).
    { induction l as [|t l IH]; intros w0; [auto|].
      cbn [fold_left]. destruct (IH (debounce_callback t w0)) as [-> ->].
      unfold debounce_callback. destruct w0 as [[pn|] ? ? ? ? ? ? ? ? ? ? ?]; auto. }
    intros t. cbn. destruct (Hgen fired (set_timers
      (filter (fun t => negb (Nat.leb (due t) (now w + ms))) (timers w)) w)) as [-> ->].
    cbn. intros Hin. apply filter_In in Hin. apply Htr. tauto.
  - unfold openDocViewer.
    destruct context as [|uri|];
      destruct w as [[pn|] lp dt subs nw [ed|] ps ts nt qs nq cs]; cbn in *; exact Htr.
  - unfold dispose_panel. destruct (nth_error (panels w) panel) as [p|]; [|exact Htr].
    destruct (disposed p); [exact Htr|].
    assert (Hgen : forall l w0,
               timers (fold_left (fun w' l => run_listener l w') l w0) = timers w0
               /\ debounceTimer (fold_left (fun w' l => run_listener l w') l w0)
                  = debounceTimer w0).
    { induction l as [|x l IH]; intros w0; [auto|].
      cbn [fold_left]. destruct (IH (run_listener x w0)) as [-> ->].
      destruct x; auto. }
    intros t. destruct (Hgen (onDidDispose p)
      (set_panels (update_nth panel with_disposed (panels w)) w)) as [-> ->].
    apply Htr.
  - unfold hover_reply. destruct (existsb _ (queries w)); [|exact Htr].
    unfold updateDocumentationContent_resume.
    destruct (getHoverInfo hovers); [|exact Htr].
    destruct w as [[pn|] ? ? ? ? ? ? ? ? ? ? ?]; exact Htr.
Qed.

Lemma tracked_run (events : list HostEvent) : tracked (run render activate events).
Proof.
  unfold run. assert (H0 : tracked activate) by (intros t []).
  revert H0. generalize activate.
  induction events as [|e events IH]; intros w Hw; [exact Hw|].
  cbn [fold_left]. apply IH. now apply tracked_step.
Qed.

(** The first event of a burst, at a position other than the recorded
    one, cancels whatever was pending and arms its own timer. *)
Lemma arm_first (w : World) (panel : nat) (editor : TextEditor) :
  docViewer w = Some panel ->
  tracked w ->
  (forall recorded, lastPosition w = Some recorded -> selection_active editor <> recorded) ->
  armed w (step render w (EvSelectionChange (Some editor))) editor.
Proof.
  unfold tracked, armed. intros Hopen Htr Hnew. cbn [step].
  unfold onDidChangeTextEditorSelection.
  destruct w as [dv lp dt subs nw ae ps ts nt qs nq cs]; cbn in *. subst dv.
  assert (Hcmp : match lp with
                 | Some last => isEqual (selection_active editor) last
                 | None => false
                 end = false).
  { destruct lp as [recorded|]; [|reflexivity]. apply isEqual_neq. now apply Hnew. }
  rewrite Hcmp. destruct dt as [id|]; cbn.
  - rewrite clear_tracked by exact Htr. cbn.
    repeat split. eexists. split; reflexivity.
  - destruct ts as [|t0 ts]; [|specialize (Htr t0 (or_introl eq_refl)); discriminate].
    cbn. repeat split. eexists. split; reflexivity.
Qed.

(** A further event within the window, at another position than the one
    before it, replaces the pending timer by its own. *)
Lemma arm_next (w0 w : World) (panel gap : nat) (editor editor' : TextEditor) :
  docViewer w0 = Some panel ->
  armed w0 w editor ->
  gap < 100 ->
  selection_active editor' <> selection_active editor ->
  armed w0 (step render (step render w (EvElapse gap)) (EvSelectionChange (Some editor')))
    editor'.
Proof.
  unfold armed. intros Hopen (Hdv & Hps & Hcs & Hqs & Hnq & Hlp & id & Hdt & Hts) Hgap Hnew.
  cbn [step]. unfold elapse, onDidChangeTextEditorSelection. cbv zeta.
  destruct w as [dv lp dt subs nw ae ps ts nt qs nq cs]; cbn in *. subst.
  rewrite Hopen in *. cbn.
  assert (Hlate : Nat.leb (nw + 100) (nw + gap) = false) by (apply Nat.leb_gt; lia).
  rewrite Hlate. cbn. rewrite isEqual_neq by exact Hnew. cbn.
  rewrite Nat.eqb_refl. cbn.
  repeat split; try assumption. eexists. split; reflexivity.
Qed.

Lemma arm_rest (w0 : World) (panel : nat) (rest : list (nat * TextEditor)) :
  docViewer w0 = Some panel ->
  forall (w : World) (editor : TextEditor),
    armed w0 w editor ->
    NoDup (burst_positions editor rest) ->
    Forall (fun ge => fst ge < 100) rest ->
    armed w0
      (run render w
         (flat_map (fun ge => [EvElapse (fst ge); EvSelectionChange (Some (snd ge))]) rest))
      (burst_last editor rest).
Proof.
  intros Hopen. unfold burst_last, burst_positions.
  induction rest as [|[gap editor'] rest IH]; intros w editor Harmed Hdistinct Hgaps.
  - exact Harmed.
  - cbn [flat_map map snd fst app run fold_left] in *. rewrite last_cons.
    inversion Hdistinct as [|? ? Hnotin Htail]; subst.
    inversion Hgaps as [|? ? Hgap Hgaps']; subst.
    apply IH; [|exact Htail|exact Hgaps'].
    apply (arm_next w0 w panel gap editor editor'); try assumption.
    intros Heq. apply Hnotin. left. now symmetry.
Qed.

(** Once the window has passed with the panel open, the pending timer
    fires and sends its query. *)
Lemma armed_fires (w0 w : World) (panel D : nat) (editor : TextEditor) :
  docViewer w0 = Some panel ->
  armed w0 w editor ->
  100 <= D ->
  let w1 := step render w (EvElapse D) in
  calls w1 = (calls w0 ++ [sent_call w0 editor])%list
  /\ queries w1 = (queries w0 ++ [sent_query w0 editor])%list
  /\ timers w1 = []
  /\ docViewer w1 = Some panel
  /\ panels w1 = panels w0.
Proof.
  unfold armed. intros Hopen (Hdv & Hps & Hcs & Hqs & Hnq & Hlp & id & Hdt & Hts) HD.
  cbn [step]. unfold elapse. cbv zeta.
  destruct w as [dv lp dt subs nw ae ps ts nt qs nq cs]; cbn in *. subst.
  rewrite Hopen in *. cbn.
  assert (Hdue : Nat.leb (nw + 100) (nw + D) = true) by (apply Nat.leb_le; lia).
  rewrite Hdue. cbn. repeat split.
Qed.

(** C1, amended. A burst of selection changes at pairwise distinct
    positions, the first at another position than the recorded one, each
    less than 100ms after the one before, with the panel open: once the
    window has passed, exactly one hover query has been sent, for the
    editor and position of the last event, and its reply is written to
    the panel once. *)
Theorem burst_one_update (w : World) (panel : nat) (first : TextEditor)
    (rest : list (nat * TextEditor)) (D : nat) :
  docViewer w = Some panel ->
  tracked w ->
  NoDup (burst_positions first rest) ->
  (forall recorded, lastPosition w = Some recorded -> selection_active first <> recorded) ->
  Forall (fun ge => fst ge < 100) rest ->
  100 <= D ->
  let final := burst_last first rest in
  let w1 := run render w (burst first rest ++ [EvElapse D]) in
  calls w1 = (calls w ++ [sent_call w final])%list
  /\ queries w1 = (queries w ++ [sent_query w final])%list
  /\ timers w1 = []
  /\ docViewer w1 = Some panel
  /\ forall hovers docContent,
      getHoverInfo hovers = Normal docContent ->
      let w2 := step render w1 (EvHoverReply (next_query w) hovers) in
      calls w2 = (calls w ++ [sent_call w final;
                              SetHtml panel (getWebviewContent render docContent)])%list
      /\ forall p, nth_error (panels w) panel = Some p ->
                   nth_error (panels w2) panel
                   = Some (with_html (getWebviewContent render docContent) p).
Proof.
  intros Hopen Htr Hdistinct Hnew Hgaps HD. cbv zeta.
  unfold run, burst. rewrite fold_left_app. cbn [fold_left].
  pose proof (arm_first w panel first Hopen Htr Hnew) as Hfirst.
  pose proof (arm_rest w panel rest Hopen _ _ Hfirst Hdistinct Hgaps) as Hlast.
  unfold run in Hlast.
  pose proof (armed_fires w _ panel D _ Hopen Hlast HD) as Hfire. cbv zeta in Hfire.
  match type of Hfire with
  | calls ?x = _ /\ _ => set (w1 := x) in *
  end.
  destruct Hfire as (Hcalls & Hqueries & Htimers & Hstill & Hpanels).
  repeat (split; [assumption|]).
  intros hovers docContent Hinfo.
  destruct (hover_reply_writes w1 (next_query w) panel hovers docContent)
    as (Hc & Hp & _ & _); [|exact Hstill|exact Hinfo|].
  { exists (sent_query w (burst_last first rest)). split; [|reflexivity].
    rewrite Hqueries. apply in_or_app. right. now left. }
  cbv zeta in Hc, Hp. cbn [step]. split.
  - rewrite Hc, Hcalls, <- app_assoc. reflexivity.
  - intros p Hnth. rewrite Hp, Hpanels. now apply nth_error_update_nth.
Qed.

End Properties.

(** * The properties at concrete inputs *)

Lemma highlight_pre_code_witness :
  getWebviewContent paragraph_render (Some "text")
  = page_head ++ paragraph_render highlight "text" ++ page_tail
  /\ first_class_attribute (highlight "a < b" "ts") = Some "language-ts"
  /\ escapeHtml "print(1)" = "print(1)".
Proof.
  destruct (highlight_pre_code paragraph_render "text" "a < b" "ts")
    as (Hwired & _ & _ & _ & Hclass & _).
  destruct (highlight_pre_code paragraph_render "text" "print(1)" "python")
    as (_ & _ & _ & _ & _ & _ & Hplain).
  split; [apply Hwired; discriminate|].
  split; [apply Hclass; reflexivity | apply Hplain; reflexivity].
Defined.

Lemma highlight_language_unescaped_witness :
  no_quote "a" = true
  /\ first_class_attribute (highlight "x" ("a" ++ dq ++ "b")) = Some "language-a".
Proof.
  split; [reflexivity|].
  exact (proj1 (highlight_language_unescaped "x" "a" "b" eq_refl)).
Defined.


Lemma selection_at_recorded_position_ignored_witness :
  lastPosition world_settled = Some {| line := 3; character := 4 |}
  /\ step paragraph_render world_settled (EvSelectionChange (Some (editor_at "b.ts" 3 4)))
     = set_activeTextEditor (Some (editor_at "b.ts" 3 4)) world_settled.
Proof.
  split; [reflexivity|].
  exact (proj1 (selection_at_recorded_position_ignored paragraph_render world_settled
                  (editor_at "b.ts" 3 4) {| line := 3; character := 4 |}
                  eq_refl eq_refl eq_refl)).
Defined.



Lemma open_from_palette_attaches_nothing_witness :
  let w := set_activeTextEditor (Some (editor_at "a.ts" 5 6)) activate in
  let w' := step paragraph_render w (EvCommandOpen NoArgument) in
  docViewer w = None
  /\ snd (openDocViewer NoArgument w) = Throw TypeError
  /\ panels w' = [bare_panel]
  /\ queries w' = []
  /\ docViewer (step paragraph_render w' (EvPanelClosed 0)) = Some 0.
Proof.
  cbv zeta.
  destruct (open_from_palette_attaches_nothing paragraph_render
              (set_activeTextEditor (Some (editor_at "a.ts" 5 6)) activate) eq_refl)
    as (Hthrow & _ & Hpanels & _ & Hqueries & Hclosed & _).
  split; [reflexivity|]. split; [exact Hthrow|]. split; [exact Hpanels|].
  split; [exact Hqueries | exact Hclosed].
Defined.

Lemma burst_one_update_witness :
  let first := editor_at "a.ts" 1 2 in
  let rest := [(30, editor_at "a.ts" 1 3); (99, editor_at "b.ts" 2 0)] in
  docViewer world_settled = Some 0
  /\ tracked world_settled
  /\ NoDup (burst_positions first rest)
  /\ (forall recorded, lastPosition world_settled = Some recorded ->
                       selection_active first <> recorded)
  /\ Forall (fun ge => fst ge < 100) rest
  /\ 100 <= 100
  /\ calls (run paragraph_render world_settled (burst first rest ++ [EvElapse 100]))
     = (calls world_settled
        ++ [ExecuteHoverProvider 1 "b.ts" {| line := 2; character := 0 |}])%list.
Proof.
  cbv zeta.
  assert (Htr : tracked world_settled) by (intros t []).
  assert (Hdistinct : NoDup (burst_positions (editor_at "a.ts" 1 2)
                               [(30, editor_at "a.ts" 1 3); (99, editor_at "b.ts" 2 0)])).
  { repeat constructor; cbn; intuition discriminate. }
  assert (Hnew : forall recorded, lastPosition world_settled = Some recorded ->
                                  selection_active (editor_at "a.ts" 1 2) <> recorded).
  { intros recorded [= <-]. discriminate. }
  assert (Hgaps : Forall (fun ge : nat * TextEditor => fst ge < 100)
                    [(30, editor_at "a.ts" 1 3); (99, editor_at "b.ts" 2 0)]).
  { repeat constructor; cbn; lia. }
  split; [reflexivity|]. split; [exact Htr|]. split; [exact Hdistinct|].
  split; [exact Hnew|]. split; [exact Hgaps|]. split; [exact (le_n 100)|].
  exact (proj1 (burst_one_update paragraph_render world_settled 0 (editor_at "a.ts" 1 2)
                  [(30, editor_at "a.ts" 1 3); (99, editor_at "b.ts" 2 0)] 100
                  eq_refl Htr Hdistinct Hnew Hgaps (le_n 100))).
Defined.

(** ** Where the first statements fail *)

(** C1 as first stated fails for a burst of one event at the recorded
    position: the event is ignored, so no timer is set and, the window
    passed, no query has been sent.  Here the cursor of [b.ts] stands at
    the line and column last recorded for [a.ts]. *)
Lemma burst_at_recorded_position_sends_nothing :
  let first := editor_at "b.ts" 3 4 in
  let w1 := run paragraph_render world_settled (burst first [] ++ [EvElapse 100]) in
  docViewer world_settled = Some 0
  /\ timers world_settled = []
  /\ queries world_settled = []
  /\ NoDup (burst_positions first [])
  /\ calls w1 = calls world_settled
  /\ queries w1 = []
  /\ calls w1 <> (calls world_settled ++ [sent_call world_settled first])%list.
Proof.
  cbv zeta.
  assert (Hsame : calls (run paragraph_render world_settled
                           (burst (editor_at "b.ts" 3 4) [] ++ [EvElapse 100]))
                  = calls world_settled) by (vm_compute; reflexivity).
  split; [reflexivity|]. split; [reflexivity|]. split; [reflexivity|].
  split; [repeat constructor; intros []|].
  split; [exact Hsame|]. split; [vm_compute; reflexivity|].
  rewrite Hsame. intros Heq. apply (f_equal (@length HostCall)) in Heq.
  rewrite length_app in Heq. cbn [length] in Heq. lia.
Qed.


(** * Further properties of the code *)

(** ** When the flattening yields nothing, and when it fails *)

(** X5. [getHoverInfo] returns [undefined] exactly when the host gave no
    entry: any entry at all, whatever its shape, makes the result a
    string (or an exception). *)
Theorem getHoverInfo_undefined_iff (hovers : option (list Hover)) :
  getHoverInfo hovers = Normal None <-> entry_count hovers = 0.
Proof.
  split.
  - destruct hovers as [[|h hs]|]; try reflexivity.
    unfold getHoverInfo. cbn [length Nat.ltb Nat.leb].
    destruct (map_hovers (h :: hs)) as [entries|e]; cbn [bind]; [|discriminate].
    destruct (join (nl ++ nl) entries); discriminate.
  - destruct hovers as [[|h hs]|]; [reflexivity | discriminate | reflexivity].
Qed.

(** A [null] among the fragments stops the inner [map], whatever came
    before it. *)
Lemma map_array_null (items : list Value) :
  In JNull items -> map_array normalizeContent items = Throw TypeError.
Proof.
  induction items as [|x rest IH]; intros Hin; [destruct Hin|].
  cbn [map_array].
  destruct (normalizeContent x) as [r|[]] eqn:Hx; cbn [bind]; [|reflexivity].
  destruct Hin as [->|Hin]; [discriminate Hx|].
  rewrite (IH Hin). reflexivity.
Qed.

Lemma hoverToMarkdown_null (h : Hover) (items : list Value) :
  get "contents" h = Normal (JArray items) -> In JNull items ->
  hoverToMarkdown h = Throw TypeError.
Proof.
  intros Hc Hin. unfold hoverToMarkdown. rewrite Hc. cbn [bind].
  rewrite (map_array_null items Hin). reflexivity.
Qed.

Lemma map_hovers_null (hovers : list Hover) :
  (exists h items, In h hovers /\ get "contents" h = Normal (JArray items)
                   /\ In JNull items) ->
  map_hovers hovers = Throw TypeError.
Proof.
  induction hovers as [|h rest IH]; intros (h' & items & Hin & Hc & Hnull);
    [destruct Hin|].
  cbn [map_hovers].
  destruct (hoverToMarkdown h) as [y|[]] eqn:Hh; cbn [bind]; [|reflexivity].
  destruct Hin as [->|Hin].
  - rewrite (hoverToMarkdown_null h' items Hc Hnull) in Hh. discriminate.
  - rewrite IH; [reflexivity|]. exists h', items. auto.
Qed.

(** ** Lists of panels, timers and queries *)

Lemma nth_error_update_nth_other {A} (i j : nat) (f : A -> A) (l : list A) :
  i <> j -> nth_error (update_nth i f l) j = nth_error l j.
Proof.
  revert i j. induction l as [|x l IH]; intros [|i] [|j] Hne; simpl; try reflexivity.
  - congruence.
  - apply IH. congruence.
Qed.

Lemma nth_error_update_nth_inv {A} (i j : nat) (f : A -> A) (l : list A) (y : A) :
  nth_error (update_nth i f l) j = Some y ->
  exists x, nth_error l j = Some x /\ ((i = j /\ y = f x) \/ (i <> j /\ y = x)).
Proof.
  intros Hy. destruct (Nat.eq_dec i j) as [->|Hne].
  - destruct (nth_error l j) as [x|] eqn:Hx.
    + rewrite (nth_error_update_nth j f l x Hx) in Hy. injection Hy as <-.
      exists x. auto.
    + apply nth_error_None in Hx.
      assert (Hlen : nth_error (update_nth j f l) j = None)
        by (apply nth_error_None; now rewrite update_nth_length).
      congruence.
  - rewrite nth_error_update_nth_other in Hy by exact Hne. exists y. auto.
Qed.

Lemma in_update_nth {A} (i : nat) (f : A -> A) (l : list A) (y : A) :
  In y (update_nth i f l) -> In y l \/ exists x, In x l /\ y = f x.
Proof.
  revert i. induction l as [|x l IH]; intros [|i]; simpl; try tauto.
  - intros [<-|Hin]; [right; exists x; auto | auto].
  - intros [<-|Hin]; [auto|].
    destruct (IH i Hin) as [H|(x' & H & ->)]; [auto|].
    right. exists x'. auto.
Qed.

Lemma nth_error_snoc_inv {A} (l : list A) (x y : A) (j : nat) :
  nth_error (l ++ [x]) j = Some y ->
  (j < length l /\ nth_error l j = Some y) \/ (j = length l /\ y = x).
Proof.
  intros Hy. destruct (Nat.lt_ge_cases j (length l)) as [Hlt|Hge].
  - left. rewrite nth_error_app1 in Hy by exact Hlt. auto.
  - right. rewrite nth_error_app2 in Hy by exact Hge.
    destruct (j - length l) as [|d] eqn:Hd; cbn in Hy.
    + injection Hy as <-. split; [lia | reflexivity].
    + destruct d; discriminate.
Qed.

Lemma filter_not_length_le {A} (f : A -> bool) (l : list A) :
  length (filter (fun x => negb (f x)) l) <= length l.
Proof.
  induction l as [|x l IH]; cbn; [lia|]. destruct (f x); cbn; lia.
Qed.

Lemma filter_not_length_lt {A} (f : A -> bool) (l : list A) :
  existsb f l = true -> length (filter (fun x => negb (f x)) l) < length l.
Proof.
  induction l as [|x l IH]; cbn; [discriminate|].
  pose proof (filter_not_length_le f l) as Hle. destruct (f x); cbn; [lia|].
  intros Hex. apply IH in Hex. lia.
Qed.

Lemma queries_only (sent : list HostCall) :
  forallb is_query sent = true ->
  filter is_query sent = sent /\ filter is_write sent = [].
Proof.
  induction sent as [|c sent IH]; cbn; [auto|].
  intros H. apply andb_prop in H. destruct H as [Hc Hs].
  destruct (IH Hs) as [-> ->]. destruct c; try discriminate. auto.
Qed.

Lemma run_listeners (ls : list Listener) (w : World) :
  fold_left (fun w' l => run_listener l w') ls w
  = match ls with [] => w | _ => set_docViewer None w end.
Proof.
  revert w. induction ls as [|[] ls IH]; intros w; [reflexivity|].
  cbn [fold_left run_listener]. rewrite IH. destruct ls; reflexivity.
Qed.

(** Closing the panel [docViewer] refers to, with the listener the
    source registered. *)
Lemma dispose_panel_live (w : World) (k : nat) (p : WebviewPanel) :
  nth_error (panels w) k = Some p ->
  disposed p = false ->
  dispose_panel k w
  = match onDidDispose p with
    | [] => set_panels (update_nth k with_disposed (panels w)) w
    | _ => set_docViewer None (set_panels (update_nth k with_disposed (panels w)) w)
    end.
Proof.
  intros Hp Hlive. unfold dispose_panel. rewrite Hp, Hlive, run_listeners.
  reflexivity.
Qed.

(** The timers that fire change neither panels nor timers nor what the
    extension recorded: they only send hover queries. *)
Lemma fire_all_shape (fired : list Timer) (w : World) :
  let w' := fold_left (fun w0 t => debounce_callback t w0) fired w in
  panels w' = panels w /\ docViewer w' = docViewer w /\ timers w' = timers w
  /\ debounceTimer w' = debounceTimer w /\ lastPosition w' = lastPosition w
  /\ now w' = now w
  /\ exists sent, calls w' = (calls w ++ sent)%list
                  /\ forallb is_query sent = true
                  /\ length (queries w') = length (queries w) + length sent.
Proof.
  revert w. induction fired as [|t fired IH]; intros w; cbv zeta.
  - repeat (split; [reflexivity|]). exists []. rewrite app_nil_r. auto.
  - cbn [fold_left]. specialize (IH (debounce_callback t w)). cbv zeta in IH.
    destruct IH as (-> & -> & -> & -> & -> & -> & sent & -> & Hq & ->).
    unfold debounce_callback.
    destruct w as [[i|] lp dt subs nw ae ps ts nt qs nq cs]; cbn.
    + repeat (split; [reflexivity|]).
      eexists (_ :: sent). rewrite <- app_assoc. cbn. rewrite Hq.
      split; [reflexivity|]. split; [reflexivity|]. rewrite length_app. cbn. lia.
    + repeat (split; [reflexivity|]). exists sent. auto.
Qed.

Section Reachable.

Variable render : (string -> string -> string) -> string -> string.

Lemma run_invariant (P : World -> Prop) :
  (forall w e, P w -> P (step render w e)) ->
  forall events w, P w -> P (run render w events).
Proof.
  intros Hstep. unfold run.
  induction events as [|e events IH]; intros w Hw; [exact Hw|].
  cbn [fold_left]. apply IH. now apply Hstep.
Qed.

Lemma run_snoc (w : World) (events : list HostEvent) (e : HostEvent) :
  run render w (events ++ [e]) = step render (run render w events) e.
Proof. unfold run. now rewrite fold_left_app. Qed.

(** The selection listener touches neither the panels nor the log. *)
Lemma selection_frame (w : World) :
  let w' := onDidChangeTextEditorSelection w in
  panels w' = panels w /\ docViewer w' = docViewer w /\ calls w' = calls w
  /\ queries w' = queries w /\ now w' = now w.
Proof.
  unfold onDidChangeTextEditorSelection.
  destruct w as [[i|] lp dt subs nw [ed|] ps ts nt qs nq cs]; cbn; auto.
  match goal with |- context [if ?c then _ else _] => destruct c end; cbn; auto.
  destruct dt; cbn; auto.
Qed.

(** Every event is one of five things to the panels. *)
Lemma step_effect (w : World) (e : HostEvent) : PanelEffect w (step render w e).
Proof.
  destruct e as [a|a|ms|context|k|query hovers]; cbn [step].
  - pose proof (selection_frame (set_activeTextEditor a w)) as Hframe.
    cbv zeta in Hframe. destruct Hframe as (Hps & Hdv & Hcs & Hqs & _).
    apply (Untouched _ _ []); try (rewrite app_nil_r);
      [rewrite Hps | rewrite Hdv | rewrite Hcs | | rewrite Hqs];
      destruct w; cbn; reflexivity || lia.
  - apply (Untouched _ _ []); try (rewrite app_nil_r);
      destruct w; cbn; reflexivity || lia.
  - unfold elapse. cbv zeta.
    match goal with
    | |- context [fold_left _ ?fired ?w0] =>
        pose proof (fire_all_shape fired w0) as Hshape
    end.
    cbv zeta in Hshape.
    destruct Hshape as (Hps & Hdv & _ & _ & _ & _ & sent & Hcs & Hq & Hlen).
    apply (Untouched _ _ sent); cbn;
      [rewrite Hps | rewrite Hdv | rewrite Hcs | exact Hq | rewrite Hlen];
      destruct w; cbn; reflexivity || lia.
  - unfold openDocViewer.
    destruct w as [[i|] lp dt subs nw [ed|] ps ts nt qs nq cs]; cbn.
    + apply (Revealed _ _ i
               [ExecuteHoverProvider nq (document_uri ed) (selection_active ed)]);
        cbn; rewrite <- ?app_assoc, ?length_app; cbn; reflexivity || lia.
    + apply (Revealed _ _ i []); cbn; reflexivity || lia.
    + destruct context as [|uri|];
        [ apply (Created _ _ NoArgument [])
        | apply (Created _ _ (ResourceArgument uri)
                   [ExecuteHoverProvider nq (document_uri ed) (selection_active ed)])
        | apply (Created _ _ ContextArgument
                   [ExecuteHoverProvider nq (document_uri ed) (selection_active ed)]) ];
        cbn; rewrite <- ?app_assoc, ?length_app, ?update_nth_last; cbn;
        reflexivity || lia.
    + destruct context as [|uri|];
        [ apply (Created _ _ NoArgument [])
        | apply (Created _ _ (ResourceArgument uri) [])
        | apply (Created _ _ ContextArgument []) ];
        cbn; rewrite ?update_nth_last; reflexivity || lia.
  - destruct (nth_error (panels w) k) as [p|] eqn:Hp.
    + destruct (disposed p) eqn:Hd.
      * unfold dispose_panel. rewrite Hp, Hd.
        apply (Untouched _ _ []); try (rewrite app_nil_r); reflexivity || lia.
      * rewrite (dispose_panel_live w k p Hp Hd).
        apply (Closed _ _ k p); try assumption;
          destruct (onDidDispose p); destruct w; reflexivity.
    + unfold dispose_panel. rewrite Hp.
      apply (Untouched _ _ []); try (rewrite app_nil_r); reflexivity || lia.
  - unfold hover_reply.
    destruct (existsb _ (queries w)) eqn:Hex;
      [|apply (Untouched _ _ []); try (rewrite app_nil_r); reflexivity || lia].
    pose proof (filter_not_length_lt _ _ Hex) as Hlt.
    unfold updateDocumentationContent_resume.
    destruct (getHoverInfo hovers) as [docContent|err].
    + destruct w as [[i|] lp dt subs nw ae ps ts nt qs nq cs]; cbn in *.
      * apply (Written _ _ i (htmlContent render docContent)); cbn;
          reflexivity || exact Hlt.
      * apply (Untouched _ _ []); cbn; try (rewrite app_nil_r);
          reflexivity || lia.
    + destruct w; cbn in *.
      apply (Untouched _ _ []); cbn; try (rewrite app_nil_r); reflexivity || lia.
Qed.

(** ** One panel *)

Lemma singleton_effect (w w' : World) :
  singleton w -> PanelEffect w w' -> singleton w'.
Proof.
  unfold singleton. intros [Hall Hdv] Heff.
  destruct Heff as [sent Hps Hd _ _ _
                   |i sent Hd Hd' Hps _ _ _
                   |i body Hd Hd' Hps _ _
                   |context sent Hd Hd' Hps _ _ _
                   |k p Hk Hlive Hps Hd' _ _].
  - rewrite Hps, Hd. auto.
  - rewrite Hps, Hd'. split.
    + intros j y Hy. apply nth_error_update_nth_inv in Hy.
      destruct Hy as (x & Hx & [[_ ->]|[_ ->]]); rewrite <- Hd;
        destruct (Hall j x Hx); auto.
    + intros j [= <-]. destruct (Hdv i Hd) as (x & Hx & Hxl).
      exists (with_viewColumn Beside x). split; [|exact Hxl].
      now apply nth_error_update_nth.
  - rewrite Hps, Hd'. split.
    + intros j y Hy. apply nth_error_update_nth_inv in Hy.
      destruct Hy as (x & Hx & [[_ ->]|[_ ->]]); rewrite <- Hd;
        destruct (Hall j x Hx); auto.
    + intros j [= <-]. destruct (Hdv i Hd) as (x & Hx & Hxl).
      exists (with_html (page body) x). split; [|exact Hxl].
      now apply nth_error_update_nth.
  - rewrite Hps, Hd'. split.
    + intros j y Hy. apply nth_error_snoc_inv in Hy.
      destruct Hy as [[_ Hy]|[-> ->]].
      * destruct (Hall j y Hy) as [Hls Hl]. split; [exact Hls|].
        intros Hyl. apply Hl in Hyl. congruence.
      * split; [destruct context; auto | reflexivity].
    + intros j [= <-]. exists (created_panel context).
      split; [apply nth_error_last | left; destruct context; reflexivity].
  - destruct (Hall k p Hk) as [Hls Hkd]. specialize (Hkd Hlive).
    rewrite Hps, Hd'. split.
    + intros j y Hy. apply nth_error_update_nth_inv in Hy.
      destruct Hy as (x & Hx & [[<- ->]|[Hne ->]]).
      * destruct (Hall k x Hx) as [Hxs _]. split; [exact Hxs | discriminate].
      * destruct (Hall j x Hx) as [Hxs Hxl]. split; [exact Hxs|].
        intros Hxlive. apply Hxl in Hxlive. congruence.
    + destruct Hls as [Hnone|Hone]; [rewrite Hnone | rewrite Hone; discriminate].
      rewrite Hkd. intros j [= <-]. exists (with_disposed p).
      split; [now apply nth_error_update_nth | right; exact Hnone].
Qed.

Lemma singleton_activate : singleton activate.
Proof.
  split.
  - intros [|i] p Hp; discriminate.
  - discriminate.
Qed.

Lemma singleton_run (events : list HostEvent) : singleton (run render activate events).
Proof.
  apply (run_invariant singleton); [|exact singleton_activate].
  intros w e Hw. apply (singleton_effect w); [exact Hw | apply step_effect].
Qed.

(** X1. Whatever events have arrived since activation, at most one panel
    is not disposed, and it is the one [docViewer] refers to.  The
    converse holds but for one case: [docViewer] may refer to a disposed
    panel, and then to one that never got its dispose listener. *)
Theorem at_most_one_live_panel (events : list HostEvent) :
  let w := run render activate events in
  (forall i j, live w i -> live w j -> i = j)
  /\ (forall i, live w i -> docViewer w = Some i)
  /\ (forall i, docViewer w = Some i ->
                live w i
                \/ exists p, nth_error (panels w) i = Some p
                             /\ disposed p = true /\ onDidDispose p = []).
Proof.
  cbv zeta. destruct (singleton_run events) as [Hall Hdv].
  assert (Hlive : forall i, live (run render activate events) i ->
                            docViewer (run render activate events) = Some i).
  { intros i (p & Hp & Hpl). destruct (Hall i p Hp) as [_ Hi]. auto. }
  split; [|split; [exact Hlive|]].
  - intros i j Hi Hj. apply Hlive in Hi. apply Hlive in Hj. congruence.
  - intros i Hi. destruct (Hdv i Hi) as (p & Hp & [Hpl|Hnone]).
    + left. exists p. auto.
    + destruct (disposed p) eqn:Hd.
      * right. exists p. auto.
      * left. exists p. auto.
Qed.

(** X2. A disposed panel that had its dispose listener is never touched
    again: [docViewer] does not refer to it, no event changes it, and no
    call an event makes into the host (reveal, html assignment) is about
    it. *)
Theorem disposed_panel_untouched (events : list HostEvent) (e : HostEvent)
    (i : nat) (p : WebviewPanel) :
  let w := run render activate events in
  nth_error (panels w) i = Some p ->
  disposed p = true ->
  onDidDispose p <> [] ->
  docViewer w <> Some i
  /\ nth_error (panels (step render w e)) i = Some p
  /\ exists added,
      calls (step render w e) = (calls w ++ added)%list
      /\ forall c, In c added -> call_panel c <> Some i.
Proof.
  cbv zeta. intros Hp Hdead Hlistener.
  destruct (singleton_run events) as [Hall Hdv].
  assert (Hother : forall j, docViewer (run render activate events) = Some j -> j <> i).
  { intros j Hj <-. destruct (Hdv j Hj) as (x & Hx & [Hxl|Hnone]); congruence. }
  assert (Hlt : i < length (panels (run render activate events)))
    by (apply nth_error_Some; congruence).
  assert (Hsent : forall sent c, forallb is_query sent = true -> In c sent ->
                                 call_panel c <> Some i).
  { intros sent c Hq Hin. rewrite forallb_forall in Hq. apply Hq in Hin.
    destruct c; discriminate. }
  split; [intros Hi; now apply (Hother i)|].
  destruct (step_effect (run render activate events) e)
    as [sent Hps _ Hcs Hq _
       |j sent Hd _ Hps Hcs Hq _
       |j body Hd _ Hps Hcs _
       |context sent _ _ Hps Hcs Hq _
       |k x Hk Hlive Hps _ Hcs _]; rewrite Hps, Hcs.
  - split; [exact Hp|]. exists sent. split; [reflexivity|]. intros c. now apply Hsent.
  - split; [rewrite nth_error_update_nth_other; [exact Hp | now apply Hother]|].
    eexists. split; [reflexivity|]. intros c [<-|Hin].
    + cbn. intros [= Heq]. exact (Hother j Hd Heq).
    + now apply (Hsent sent).
  - split; [rewrite nth_error_update_nth_other; [exact Hp | now apply Hother]|].
    eexists. split; [reflexivity|]. intros c [<-|[]].
    cbn. intros [= Heq]. exact (Hother j Hd Heq).
  - split; [rewrite nth_error_app1; [exact Hp | exact Hlt]|].
    eexists. split; [reflexivity|]. intros c [<-|Hin].
    + cbn. intros [= Heq]. lia.
    + now apply (Hsent sent).
  - split; [rewrite nth_error_update_nth_other; [exact Hp|]; intros <-; congruence|].
    exists []. split; [now rewrite app_nil_r | intros c []].
Qed.

Lemma open_when_closed (context : CommandArgument) (w : World) :
  docViewer w = None ->
  docViewer (fst (openDocViewer context w)) = Some (length (panels w))
  /\ panels (fst (openDocViewer context w)) = (panels w ++ [created_panel context])%list.
Proof.
  intros Hclosed. unfold openDocViewer. rewrite Hclosed.
  destruct context; destruct w as [dv lp dt subs nw [ed|] ps ts nt qs nq cs]; cbn;
    rewrite ?update_nth_last; auto.
Qed.

(** X13. Closing a panel that has its dispose listener and invoking the
    command again creates a new panel with an empty webview; the closed
    one stays disposed and is not reused.  The new panel has the options
    of the source, and its own listener unless the command came without
    an argument. *)
Theorem reopen_creates_fresh_panel (events : list HostEvent) (panel : nat)
    (p : WebviewPanel) (context : CommandArgument) :
  let w := run render activate events in
  docViewer w = Some panel ->
  nth_error (panels w) panel = Some p ->
  onDidDispose p <> [] ->
  let w' := run render w [EvPanelClosed panel; EvCommandOpen context] in
  docViewer w' = Some (length (panels w))
  /\ panel < length (panels w)
  /\ nth_error (panels w') (length (panels w)) = Some (created_panel context)
  /\ (exists p', nth_error (panels w') panel = Some p' /\ disposed p' = true)
  /\ length (panels w') = S (length (panels w)).
Proof.
  cbv zeta. intros Hopen Hp Hlistener.
  destruct (singleton_run events) as [Hall Hdv].
  destruct (Hdv panel Hopen) as (p0 & Hp0 & Hstate).
  assert (p0 = p) by congruence. subst p0.
  destruct Hstate as [Hlive|Hnone]; [|contradiction].
  destruct (Hall panel p Hp) as [[Hnone|Hls] _]; [contradiction|].
  set (w := run render activate events) in *.
  assert (Hlt : panel < length (panels w)) by (apply nth_error_Some; congruence).
  unfold run. cbn [fold_left step].
  rewrite (dispose_panel_live w panel p Hp Hlive), Hls.
  set (closed := set_docViewer None _).
  assert (Hps : panels closed = update_nth panel with_disposed (panels w)) by reflexivity.
  destruct (open_when_closed context closed eq_refl) as [Hdv' Hps'].
  rewrite Hdv', Hps', Hps, update_nth_length.
  split; [reflexivity|]. split; [exact Hlt|]. split.
  - rewrite <- (update_nth_length panel with_disposed (panels w)).
    apply nth_error_last.
  - split.
    + exists (with_disposed p). split; [|reflexivity].
      rewrite nth_error_app1 by (now rewrite update_nth_length).
      now apply nth_error_update_nth.
    + rewrite length_app, update_nth_length. cbn. lia.
Qed.

(** ** What is written *)

Lemma shell_pages_effect (w w' : World) :
  shell_pages w -> PanelEffect w w' -> shell_pages w'.
Proof.
  unfold shell_pages. intros [Hhtml Hlog] Heff.
  assert (Hsent : forall sent panel pg,
             forallb is_query sent = true -> ~ In (SetHtml panel pg) sent).
  { intros sent panel pg Hq Hin.
    rewrite forallb_forall in Hq. apply Hq in Hin. discriminate. }
  destruct Heff as [sent Hps _ Hcs Hq _
                   |i sent _ _ Hps Hcs Hq _
                   |i body _ _ Hps Hcs _
                   |context sent _ _ Hps Hcs Hq _
                   |k p _ _ Hps _ Hcs _]; rewrite Hps, Hcs; split.
  - exact Hhtml.
  - intros panel pg Hin. apply in_app_or in Hin. destruct Hin as [Hin|Hin]; [eauto|].
    now apply Hsent in Hin.
  - intros y Hy. apply in_update_nth in Hy.
    destruct Hy as [Hy|(x & Hx & ->)]; [auto | exact (Hhtml x Hx)].
  - intros panel pg Hin. apply in_app_or in Hin. destruct Hin as [Hin|[Hin|Hin]]; [eauto| |].
    + discriminate.
    + now apply Hsent in Hin.
  - intros y Hy. apply in_update_nth in Hy.
    destruct Hy as [Hy|(x & Hx & ->)]; [auto|]. right. exists body. reflexivity.
  - intros panel pg Hin. apply in_app_or in Hin.
    destruct Hin as [Hin|[[= _ <-]|[]]]; [eauto|]. exists body. reflexivity.
  - intros y Hy. apply in_app_or in Hy. destruct Hy as [Hy|[<-|[]]]; [auto|].
    left. destruct context; reflexivity.
  - intros panel pg Hin. apply in_app_or in Hin. destruct Hin as [Hin|[Hin|Hin]]; [eauto| |].
    + discriminate.
    + now apply Hsent in Hin.
  - intros y Hy. apply in_update_nth in Hy.
    destruct Hy as [Hy|(x & Hx & ->)]; [auto | exact (Hhtml x Hx)].
  - exact Hlog.
Qed.

(** X10. A webview only ever holds the empty string it was created with
    or a page of the shell, and every write to a panel is such a page:
    the head and the tail of the template around a body. *)
Theorem only_shell_pages_written (events : list HostEvent) :
  let w := run render activate events in
  (forall p, In p (panels w) ->
             html p = "" \/ exists body, html p = page_head ++ body ++ page_tail)
  /\ (forall panel pg, In (SetHtml panel pg) (calls w) ->
                       exists body, pg = page_head ++ body ++ page_tail).
Proof.
  cbv zeta. change (shell_pages (run render activate events)).
  apply (run_invariant shell_pages).
  - intros w e Hw. apply (shell_pages_effect w); [exact Hw | apply step_effect].
  - split; [intros p [] | intros panel pg []].
Qed.

Lemma count_app (f : HostCall -> bool) (a b : list HostCall) :
  count f (a ++ b) = count f a + count f b.
Proof. unfold count. now rewrite filter_app, length_app. Qed.

Lemma count_sent (sent : list HostCall) :
  forallb is_query sent = true ->
  count is_query sent = length sent /\ count is_write sent = 0.
Proof.
  intros Hq. unfold count. destruct (queries_only sent Hq) as [-> ->]. auto.
Qed.

(** X11. The panel is never written more often than the host was
    queried: the writes so far and the queries still unanswered together
    do not exceed the hover queries sent. *)
Theorem writes_bounded_by_queries (events : list HostEvent) :
  let w := run render activate events in
  count is_write (calls w) + length (queries w) <= count is_query (calls w).
Proof.
  cbv zeta.
  apply (run_invariant
           (fun w => count is_write (calls w) + length (queries w)
                     <= count is_query (calls w))); [|cbn; lia].
  intros w e Hw.
  destruct (step_effect w e) as [sent _ _ Hcs Hq Hlen
                                |i sent _ _ _ Hcs Hq Hlen
                                |i body _ _ _ Hcs Hlen
                                |context sent _ _ _ Hcs Hq Hlen
                                |k p _ _ _ _ Hcs Hqs]; rewrite Hcs.
  - rewrite !count_app. destruct (count_sent sent Hq) as [-> ->]. lia.
  - rewrite !count_app. change (Reveal i Beside :: sent) with ([Reveal i Beside] ++ sent)%list.
    rewrite !count_app. destruct (count_sent sent Hq) as [-> ->]. cbn. lia.
  - rewrite !count_app. cbn. lia.
  - rewrite !count_app.
    change (CreateWebviewPanel (length (panels w)) :: sent)
      with ([CreateWebviewPanel (length (panels w))] ++ sent)%list.
    rewrite !count_app. destruct (count_sent sent Hq) as [-> ->]. cbn. lia.
  - rewrite Hqs. exact Hw.
Qed.

(** ** The timer and the recorded position *)

(** Only selection changes and the passing of time touch the timers,
    the recorded position and the clock. *)
Lemma step_timer_frame (w : World) (e : HostEvent) :
  match e with EvSelectionChange _ | EvElapse _ => False | _ => True end ->
  let w' := step render w e in
  timers w' = timers w /\ debounceTimer w' = debounceTimer w
  /\ lastPosition w' = lastPosition w /\ now w' = now w.
Proof.
  destruct e as [a|a|ms|context|k|query hovers]; intros He; try contradiction;
    cbv zeta; cbn [step].
  - destruct w; cbn; auto.
  - unfold openDocViewer.
    destruct context;
      destruct w as [[i|] lp dt subs nw [ed|] ps ts nt qs nq cs]; cbn; auto.
  - unfold dispose_panel. destruct (nth_error (panels w) k) as [p|]; [|auto].
    destruct (disposed p); [auto|]. rewrite run_listeners.
    destruct (onDidDispose p); destruct w; cbn; auto.
  - unfold hover_reply. destruct (existsb _ (queries w)); [|auto].
    unfold updateDocumentationContent_resume.
    destruct (getHoverInfo hovers);
      destruct w as [[i|] lp dt subs nw ae ps ts nt qs nq cs]; cbn; auto.
Qed.

Lemma one_timer_step (w : World) (e : HostEvent) :
  one_timer w -> one_timer (step render w e).
Proof.
  intros Hone.
  destruct e as [a|a|ms|context|k|query hovers];
    try (match goal with
         | |- one_timer (step render w ?e) =>
             pose proof (step_timer_frame w e I) as Hframe
         end;
         cbv zeta in Hframe; destruct Hframe as (Ht & Hd & Hl & Hn);
         unfold one_timer; rewrite Ht, Hd, Hl, Hn; exact Hone).
  - cbn [step]. unfold onDidChangeTextEditorSelection, one_timer in *.
    destruct w as [[i|] lp dt subs nw ae ps ts nt qs nq cs]; cbn in *; [|exact Hone].
    destruct a as [ed|]; [|exact Hone].
    destruct (match lp with
              | Some last => isEqual (selection_active ed) last
              | None => false
              end); [exact Hone|].
    assert (Hclear : match dt with
                     | Some id => filter (fun t => negb (Nat.eqb (timer_id t) id)) ts
                     | None => ts
                     end = []).
    { destruct dt as [id|].
      - apply clear_tracked. intros t Hin. now destruct (Hone t Hin) as (_ & -> & _).
      - destruct ts as [|t0 ts]; [reflexivity|].
        destruct (Hone t0 (or_introl eq_refl)) as (_ & Hd & _). discriminate. }
    destruct dt as [id|]; cbn; rewrite Hclear; cbn;
      intros t [<-|[]]; cbn; repeat split; lia.
  - cbn [step]. unfold elapse, one_timer in *. cbv zeta. intros t.
    match goal with
    | |- context [fold_left ?f ?fired ?w0] =>
        pose proof (fire_all_shape fired w0) as Hshape
    end.
    cbv zeta in Hshape. destruct Hshape as (_ & _ & Ht & Hd & Hl & _).
    cbn. rewrite Ht, Hd, Hl. cbn. intros Hin.
    apply filter_In in Hin. destruct Hin as [Hin Hlate].
    destruct (Hone t Hin) as (Hts & Hdt & Hlp & Hpos & Hdue).
    apply negb_true_iff, Nat.leb_gt in Hlate.
    split.
    + rewrite Hts. cbn. apply Nat.leb_gt in Hlate. now rewrite Hlate.
    + repeat split; try assumption; lia.
Qed.

Lemma one_timer_run (events : list HostEvent) : one_timer (run render activate events).
Proof.
  apply (run_invariant one_timer); [apply one_timer_step | intros t []].
Qed.

(** X3. At most one debounce timer is ever pending; it is the one
    [debounceTimer] refers to, and the update it will run is for the
    recorded position. *)
Theorem at_most_one_pending_update (events : list HostEvent) :
  let w := run render activate events in
  length (timers w) <= 1
  /\ forall t, In t (timers w) ->
               debounceTimer w = Some (timer_id t)
               /\ lastPosition w = Some (timer_position t)
               /\ timer_position t = selection_active (timer_editor t).
Proof.
  cbv zeta. pose proof (one_timer_run events) as Hone. unfold one_timer in Hone.
  split.
  - destruct (timers (run render activate events)) as [|t ts] eqn:Hts; [cbn; lia|].
    destruct (Hone t (or_introl eq_refl)) as ([= ->] & _). cbn. lia.
  - intros t Hin. destruct (Hone t Hin) as (_ & Hd & Hl & Hp & _). auto.
Qed.

(** X4. A scheduled update is never more than 100ms away: once 100ms
    have passed, no timer is pending. *)
Theorem idle_after_window (events : list HostEvent) (D : nat) :
  100 <= D ->
  timers (step render (run render activate events) (EvElapse D)) = [].
Proof.
  intros HD. pose proof (one_timer_run events) as Hone.
  generalize dependent (run render activate events). intros w Hone.
  cbn [step]. unfold elapse. cbv zeta.
  match goal with
  | |- context [fold_left _ ?fired ?w0] =>
      pose proof (fire_all_shape fired w0) as Hshape
  end.
  cbv zeta in Hshape. destruct Hshape as (_ & _ & Ht & _).
  cbn. rewrite Ht. cbn.
  destruct (timers w) as [|t ts] eqn:Hts; [reflexivity|].
  assert (Hin : In t (timers w)) by (rewrite Hts; now left).
  destruct (Hone t Hin) as (Hone_t & _ & _ & _ & Hdue).
  rewrite Hts in Hone_t. injection Hone_t as ->.
  cbn. assert (Hfire : Nat.leb (due t) (now w + D) = true) by (apply Nat.leb_le; lia).
  now rewrite Hfire.
Qed.


Lemma map_html_update_nth (k : nat) (f : WebviewPanel -> WebviewPanel)
    (ps : list WebviewPanel) :
  (forall p, html (f p) = html p) ->
  map html (update_nth k f ps) = map html ps.
Proof.
  intros Hf. revert k. induction ps as [|p ps IH]; intros [|k]; cbn; try reflexivity.
  - now rewrite Hf.
  - now rewrite IH.
Qed.

(** X12. While no panel is open the extension is inert: whatever happens
    other than the command, it makes no call into the host, records no
    position, sets no timer and changes no webview. *)
Theorem inert_while_closed (w : World) (e : HostEvent) :
  docViewer w = None ->
  (forall context, e <> EvCommandOpen context) ->
  let w' := step render w e in
  calls w' = calls w
  /\ lastPosition w' = lastPosition w
  /\ docViewer w' = None
  /\ (forall t, In t (timers w') -> In t (timers w))
  /\ map html (panels w') = map html (panels w).
Proof.
  intros Hclosed He. cbv zeta.
  destruct e as [a|a|ms|context|k|query hovers];
    try (now destruct (He context)); cbn [step].
  - unfold onDidChangeTextEditorSelection.
    destruct w as [dv lp dt subs nw ae ps ts nt qs nq cs]; cbn in *. subst dv.
    cbn. auto.
  - destruct w; cbn in *; auto.
  - unfold elapse. cbv zeta. rewrite fire_all_closed by exact Hclosed.
    destruct w; cbn in *.
    split; [reflexivity|]. split; [reflexivity|]. split; [assumption|].
    split; [|reflexivity].
    intros t Hin. apply filter_In in Hin. tauto.
  - unfold dispose_panel. destruct (nth_error (panels w) k) as [p|]; [|auto].
    destruct (disposed p); [auto|]. rewrite run_listeners.
    destruct (onDidDispose p); destruct w; cbn in *;
      (split; [reflexivity|]); (split; [reflexivity|]);
      (split; [assumption || reflexivity|]); (split; [tauto|]);
      now apply map_html_update_nth.
  - unfold hover_reply. destruct (existsb _ (queries w)); [|auto].
    unfold updateDocumentationContent_resume.
    destruct (getHoverInfo hovers); destruct w; cbn in *; subst; auto.
Qed.

(** X8. The recorded position outlives the panel.  Take a panel that has
    its dispose listener, and the command run with an argument.
    Selection changes while the panel is closed are not recorded, and
    the command does not record the position it fetches for; so after
    closing, moving the cursor, reopening and moving back to the
    position recorded before the close, the move back is ignored: the
    panel was filled for the position it was reopened at and no update
    is scheduled. *)
Theorem recorded_position_outlives_panel (events : list HostEvent) (panel : nat)
    (p : WebviewPanel) (context : CommandArgument) (elsewhere back : TextEditor) :
  let w := run render activate events in
  docViewer w = Some panel ->
  nth_error (panels w) panel = Some p ->
  onDidDispose p <> [] ->
  context <> NoArgument ->
  lastPosition w = Some (selection_active back) ->
  timers w = [] ->
  let w' := run render w [EvPanelClosed panel; EvSelectionChange (Some elsewhere);
                          EvCommandOpen context; EvSelectionChange (Some back)] in
  calls w' = (calls w ++ [CreateWebviewPanel (length (panels w));
                          sent_call w elsewhere])%list
  /\ timers w' = []
  /\ lastPosition w' = Some (selection_active back)
  /\ forall ms, calls (step render w' (EvElapse ms)) = calls w'.
Proof.
  cbv zeta. pose proof (singleton_run events) as [Hall Hdv].
  generalize dependent (run render activate events).
  intros w Hall Hdv Hopen Hp Hlistener Hcontext Hlast Hidle.
  destruct (Hdv panel Hopen) as (p0 & Hp0 & Hstate).
  assert (p0 = p) by congruence. subst p0.
  destruct Hstate as [Hlive|Hnone]; [|contradiction].
  destruct (Hall panel p Hp) as [[Hnone|Hls] _]; [contradiction|].
  unfold run. cbn [fold_left step].
  rewrite (dispose_panel_live w panel p Hp Hlive), Hls.
  unfold onDidChangeTextEditorSelection, openDocViewer.
  assert (Hsame : isEqual (selection_active back) (selection_active back) = true)
    by now apply isEqual_eq.
  destruct context as [|uri|]; [contradiction| |];
    destruct w as [dv lp dt subs nw ae ps ts nt qs nq cs]; cbn in *; subst;
    rewrite Hsame; cbn; rewrite update_nth_length, <- app_assoc; cbn;
    repeat split.
Qed.

Lemma hover_reply_pending (w : World) (query : nat) (hovers : option (list Hover)) :
  (exists x, In x (queries w) /\ query_id x = query) ->
  queries (hover_reply render query hovers w)
  = filter (fun x => negb (Nat.eqb (query_id x) query)) (queries w).
Proof.
  intros [x [Hin Hid]]. unfold hover_reply.
  assert (Hex : existsb (fun x => Nat.eqb (query_id x) query) (queries w) = true).
  { apply existsb_exists. exists x. split; [exact Hin | now apply Nat.eqb_eq]. }
  rewrite Hex. unfold updateDocumentationContent_resume.
  destruct (getHoverInfo hovers);
    destruct w as [[i|] lp dt subs nw ae ps ts nt qs nq cs]; reflexivity.
Qed.

(** X9. Replies are written in the order they arrive: of two pending
    queries, the one answered last decides what the panel shows,
    whichever of them was sent for the newer position. *)
Theorem last_reply_wins (w : World) (panel : nat) (p : WebviewPanel)
    (first second : nat) (hovers1 hovers2 : option (list Hover))
    (doc1 doc2 : option string) :
  docViewer w = Some panel ->
  nth_error (panels w) panel = Some p ->
  (exists x, In x (queries w) /\ query_id x = first) ->
  (exists x, In x (queries w) /\ query_id x = second) ->
  first <> second ->
  getHoverInfo hovers1 = Normal doc1 ->
  getHoverInfo hovers2 = Normal doc2 ->
  let w' := run render w [EvHoverReply second hovers2; EvHoverReply first hovers1] in
  nth_error (panels w') panel = Some (with_html (getWebviewContent render doc1) p)
  /\ calls w' = (calls w ++ [SetHtml panel (getWebviewContent render doc2);
                             SetHtml panel (getWebviewContent render doc1)])%list.
Proof.
  intros Hopen Hp Hfirst Hsecond Hne Hdoc1 Hdoc2. cbv zeta.
  unfold run. cbn [fold_left step].
  destruct (hover_reply_writes render w second panel hovers2 doc2 Hsecond Hopen Hdoc2)
    as (Hc2 & Hp2 & Hdv2 & _).
  pose proof (hover_reply_pending w second hovers2 Hsecond) as Hq2.
  set (w2 := hover_reply render second hovers2 w) in *.
  assert (Hstill : exists x, In x (queries w2) /\ query_id x = first).
  { destruct Hfirst as (x & Hin & Hid). exists x. split; [|exact Hid].
    rewrite Hq2. apply filter_In. split; [exact Hin|].
    apply negb_true_iff, Nat.eqb_neq. congruence. }
  destruct (hover_reply_writes render w2 first panel hovers1 doc1 Hstill Hdv2 Hdoc1)
    as (Hc1 & Hp1 & _ & _).
  cbv zeta in *. split.
  - rewrite Hp1, Hp2.
    rewrite (nth_error_update_nth panel _ _
               (with_html (getWebviewContent render doc2) p))
      by (apply nth_error_update_nth; exact Hp).
    destruct p; reflexivity.
  - rewrite Hc1, Hc2, <- app_assoc. reflexivity.
Qed.

(** X6. A [null] among the fragments of any entry makes [getHoverInfo]
    raise a TypeError; the reply is then dropped whole, the good entries
    with it: nothing is written and the panels keep the pages they
    had. *)
Theorem null_fragment_drops_reply (hovers : list Hover) :
  (exists h items, In h hovers /\ get "contents" h = Normal (JArray items)
                   /\ In JNull items) ->
  getHoverInfo (Some hovers) = Throw TypeError
  /\ forall w query,
      let w' := step render w (EvHoverReply query (Some hovers)) in
      calls w' = calls w /\ panels w' = panels w.
Proof.
  intros Hnull.
  assert (Hthrow : getHoverInfo (Some hovers) = Throw TypeError).
  { unfold getHoverInfo. destruct hovers as [|h rest].
    - destruct Hnull as (h & items & [] & _).
    - cbn [length Nat.ltb Nat.leb]. rewrite (map_hovers_null _ Hnull). reflexivity. }
  split; [exact Hthrow|].
  intros w query. cbn [step]. unfold hover_reply.
  destruct (existsb _ (queries w)); [|auto].
  unfold updateDocumentationContent_resume. rewrite Hthrow.
  destruct w; cbn; auto.
Qed.

End Reachable.

(** ** The further properties at concrete inputs *)

Lemma at_most_one_live_panel_witness :
  let w := run paragraph_render activate
             [EvCommandOpen from_menu; EvPanelClosed 0; EvCommandOpen from_menu] in
  live w 1 /\ docViewer w = Some 1 /\ ~ live w 0.
Proof.
  cbv zeta.
  destruct (at_most_one_live_panel paragraph_render
              [EvCommandOpen from_menu; EvPanelClosed 0; EvCommandOpen from_menu])
    as (Hone & Hdoc & _).
  cbv zeta in Hone, Hdoc.
  assert (Hlive : live (run paragraph_render activate
                          [EvCommandOpen from_menu; EvPanelClosed 0; EvCommandOpen from_menu]) 1)
    by (exists fresh_panel; split; vm_compute; reflexivity).
  split; [exact Hlive|]. split; [exact (Hdoc 1 Hlive)|].
  intros Hzero. specialize (Hone 0 1 Hzero Hlive). discriminate.
Defined.

Lemma disposed_panel_untouched_witness :
  let w := run paragraph_render activate
             [EvCommandOpen from_menu; EvPanelClosed 0; EvCommandOpen from_menu] in
  nth_error (panels w) 0 = Some (with_disposed fresh_panel)
  /\ disposed (with_disposed fresh_panel) = true
  /\ onDidDispose (with_disposed fresh_panel) <> []
  /\ nth_error (panels (step paragraph_render w (EvCommandOpen NoArgument))) 0
     = Some (with_disposed fresh_panel).
Proof.
  cbv zeta.
  assert (Hp : nth_error
                 (panels (run paragraph_render activate
                            [EvCommandOpen from_menu; EvPanelClosed 0;
                             EvCommandOpen from_menu])) 0
               = Some (with_disposed fresh_panel)) by (vm_compute; reflexivity).
  assert (Hlistener : onDidDispose (with_disposed fresh_panel) <> []) by discriminate.
  split; [exact Hp|]. split; [reflexivity|]. split; [exact Hlistener|].
  exact (proj1 (proj2 (disposed_panel_untouched paragraph_render
                         [EvCommandOpen from_menu; EvPanelClosed 0; EvCommandOpen from_menu]
                         (EvCommandOpen NoArgument) 0 (with_disposed fresh_panel)
                         Hp eq_refl Hlistener))).
Defined.

Lemma at_most_one_pending_update_witness :
  let w := run paragraph_render activate
             [EvCommandOpen from_menu; EvSelectionChange (Some (editor_at "a.ts" 1 2));
              EvElapse 10; EvSelectionChange (Some (editor_at "a.ts" 1 3))] in
  let t := {| timer_id := 1; due := 110; timer_editor := editor_at "a.ts" 1 3;
              timer_position := {| line := 1; character := 3 |} |} in
  In t (timers w)
  /\ lastPosition w = Some {| line := 1; character := 3 |}.
Proof.
  cbv zeta.
  assert (Hin : In {| timer_id := 1; due := 110; timer_editor := editor_at "a.ts" 1 3;
                      timer_position := {| line := 1; character := 3 |} |}
                  (timers (run paragraph_render activate
                             [EvCommandOpen from_menu;
                              EvSelectionChange (Some (editor_at "a.ts" 1 2));
                              EvElapse 10; EvSelectionChange (Some (editor_at "a.ts" 1 3))])))
    by (vm_compute; left; reflexivity).
  split; [exact Hin|].
  destruct (at_most_one_pending_update paragraph_render
              [EvCommandOpen from_menu; EvSelectionChange (Some (editor_at "a.ts" 1 2));
               EvElapse 10; EvSelectionChange (Some (editor_at "a.ts" 1 3))])
    as [_ Hpending].
  exact (proj1 (proj2 (Hpending _ Hin))).
Defined.

Lemma idle_after_window_witness :
  100 <= 100
  /\ timers (step paragraph_render
               (run paragraph_render activate
                  [EvCommandOpen from_menu; EvSelectionChange (Some (editor_at "a.ts" 1 2))])
               (EvElapse 100)) = [].
Proof.
  split; [exact (le_n 100)|].
  exact (idle_after_window paragraph_render
           [EvCommandOpen from_menu; EvSelectionChange (Some (editor_at "a.ts" 1 2))]
           100 (le_n 100)).
Defined.

Lemma null_fragment_drops_reply_witness :
  getHoverInfo (Some [hover_of [Plain "a"]; hover_with (JArray [JString "b"; JNull])])
  = Throw TypeError.
Proof.
  apply (null_fragment_drops_reply paragraph_render).
  exists (hover_with (JArray [JString "b"; JNull])), [JString "b"; JNull].
  split; [right; left; reflexivity|]. split; [reflexivity|]. right. left. reflexivity.
Defined.

Lemma recorded_position_outlives_panel_witness :
  let w := run paragraph_render activate
             [EvCommandOpen from_menu; EvSelectionChange (Some (editor_at "a.ts" 3 4));
              EvElapse 100; EvHoverReply 0 (Some [hover_of [Plain "doc"]])] in
  let shown := with_html (getWebviewContent paragraph_render (Some "doc")) fresh_panel in
  let w' := run paragraph_render w
              [EvPanelClosed 0; EvSelectionChange (Some (editor_at "a.ts" 9 9));
               EvCommandOpen from_menu; EvSelectionChange (Some (editor_at "a.ts" 3 4))] in
  docViewer w = Some 0
  /\ nth_error (panels w) 0 = Some shown
  /\ onDidDispose shown <> []
  /\ from_menu <> NoArgument
  /\ lastPosition w = Some (selection_active (editor_at "a.ts" 3 4))
  /\ timers w = []
  /\ timers w' = [].
Proof.
  cbv zeta.
  set (w := run paragraph_render activate
              [EvCommandOpen from_menu; EvSelectionChange (Some (editor_at "a.ts" 3 4));
               EvElapse 100; EvHoverReply 0 (Some [hover_of [Plain "doc"]])]).
  assert (Hopen : docViewer w = Some 0) by (vm_compute; reflexivity).
  assert (Hp : nth_error (panels w) 0
               = Some (with_html (getWebviewContent paragraph_render (Some "doc"))
                         fresh_panel)) by (vm_compute; reflexivity).
  assert (Hlistener : onDidDispose (with_html (getWebviewContent paragraph_render
                                                 (Some "doc")) fresh_panel) <> [])
    by discriminate.
  assert (Hcontext : from_menu <> NoArgument) by discriminate.
  assert (Hlast : lastPosition w = Some (selection_active (editor_at "a.ts" 3 4)))
    by (vm_compute; reflexivity).
  assert (Hidle : timers w = []) by (vm_compute; reflexivity).
  repeat (split; [assumption|]).
  exact (proj1 (proj2 (recorded_position_outlives_panel paragraph_render
                         [EvCommandOpen from_menu;
                          EvSelectionChange (Some (editor_at "a.ts" 3 4));
                          EvElapse 100; EvHoverReply 0 (Some [hover_of [Plain "doc"]])]
                         0 _ from_menu (editor_at "a.ts" 9 9) (editor_at "a.ts" 3 4)
                         Hopen Hp Hlistener Hcontext Hlast Hidle))).
Defined.

Lemma last_reply_wins_witness :
  let w := run paragraph_render world_open
             [EvSelectionChange (Some (editor_at "a.ts" 1 2)); EvElapse 100;
              EvSelectionChange (Some (editor_at "a.ts" 5 0)); EvElapse 100] in
  let older := Some [hover_of [Plain "old"]] in
  let newer := Some [hover_of [Plain "new"]] in
  map query_position (queries w)
  = [{| line := 1; character := 2 |}; {| line := 5; character := 0 |}]
  /\ nth_error (panels (run paragraph_render w [EvHoverReply 1 newer; EvHoverReply 0 older])) 0
     = Some (with_html (getWebviewContent paragraph_render (Some "old")) fresh_panel).
Proof.
  cbv zeta. split; [vm_compute; reflexivity|].
  set (w := run paragraph_render world_open
              [EvSelectionChange (Some (editor_at "a.ts" 1 2)); EvElapse 100;
               EvSelectionChange (Some (editor_at "a.ts" 5 0)); EvElapse 100]).
  assert (Hopen : docViewer w = Some 0) by (vm_compute; reflexivity).
  assert (Hp : nth_error (panels w) 0 = Some fresh_panel) by (vm_compute; reflexivity).
  assert (Hfirst : exists x, In x (queries w) /\ query_id x = 0).
  { exists {| query_id := 0; query_uri := "a.ts";
              query_position := {| line := 1; character := 2 |} |}.
    split; [vm_compute; left; reflexivity | reflexivity]. }
  assert (Hsecond : exists x, In x (queries w) /\ query_id x = 1).
  { exists {| query_id := 1; query_uri := "a.ts";
              query_position := {| line := 5; character := 0 |} |}.
    split; [vm_compute; right; left; reflexivity | reflexivity]. }
  assert (Hne : 0 <> 1) by discriminate.
  assert (Hold : getHoverInfo (Some [hover_of [Plain "old"]]) = Normal (Some "old"))
    by (vm_compute; reflexivity).
  assert (Hnew : getHoverInfo (Some [hover_of [Plain "new"]]) = Normal (Some "new"))
    by (vm_compute; reflexivity).
  exact (proj1 (last_reply_wins paragraph_render w 0 fresh_panel 0 1
                  (Some [hover_of [Plain "old"]]) (Some [hover_of [Plain "new"]])
                  (Some "old") (Some "new") Hopen Hp Hfirst Hsecond Hne Hold Hnew)).
Defined.

Lemma only_shell_pages_written_witness :
  let w := run paragraph_render activate
             [EvCommandOpen from_menu; EvSelectionChange (Some (editor_at "a.ts" 3 4));
              EvElapse 100; EvHoverReply 0 (Some [hover_of [Plain "doc"]])] in
  let p := with_html (getWebviewContent paragraph_render (Some "doc")) fresh_panel in
  In p (panels w)
  /\ (html p = "" \/ exists body, html p = page_head ++ body ++ page_tail).
Proof.
  cbv zeta.
  assert (Hin : In (with_html (getWebviewContent paragraph_render (Some "doc")) fresh_panel)
                  (panels (run paragraph_render activate
                             [EvCommandOpen from_menu;
                              EvSelectionChange (Some (editor_at "a.ts" 3 4));
                              EvElapse 100; EvHoverReply 0 (Some [hover_of [Plain "doc"]])])))
    by (vm_compute; left; reflexivity).
  split; [exact Hin|].
  destruct (only_shell_pages_written paragraph_render
              [EvCommandOpen from_menu; EvSelectionChange (Some (editor_at "a.ts" 3 4));
               EvElapse 100; EvHoverReply 0 (Some [hover_of [Plain "doc"]])])
    as [Hpanels _].
  exact (Hpanels (with_html (getWebviewContent paragraph_render (Some "doc")) fresh_panel)
           Hin).
Defined.

Lemma inert_while_closed_witness :
  let w := run paragraph_render world_settled [EvPanelClosed 0] in
  let e := EvSelectionChange (Some (editor_at "a.ts" 7 7)) in
  docViewer w = None
  /\ (forall context, e <> EvCommandOpen context)
  /\ calls (step paragraph_render w e) = calls w
  /\ lastPosition (step paragraph_render w e) = Some {| line := 3; character := 4 |}.
Proof.
  cbv zeta.
  assert (He : forall context,
             EvSelectionChange (Some (editor_at "a.ts" 7 7)) <> EvCommandOpen context)
    by discriminate.
  destruct (inert_while_closed paragraph_render
              (run paragraph_render world_settled [EvPanelClosed 0])
              (EvSelectionChange (Some (editor_at "a.ts" 7 7))) eq_refl He)
    as (Hcalls & Hlast & _).
  split; [reflexivity|]. split; [exact He|]. split; [exact Hcalls | exact Hlast].
Defined.

Lemma reopen_creates_fresh_panel_witness :
  let w := run paragraph_render activate [EvCommandOpen from_menu] in
  let w' := run paragraph_render w [EvPanelClosed 0; EvCommandOpen NoArgument] in
  docViewer w = Some 0
  /\ nth_error (panels w) 0 = Some fresh_panel
  /\ onDidDispose fresh_panel <> []
  /\ docViewer w' = Some 1
  /\ nth_error (panels w') 1 = Some bare_panel.
Proof.
  cbv zeta.
  assert (Hlistener : onDidDispose fresh_panel <> []) by discriminate.
  destruct (reopen_creates_fresh_panel paragraph_render [EvCommandOpen from_menu]
              0 fresh_panel NoArgument eq_refl eq_refl Hlistener)
    as (Hdv & _ & Hfresh & _).
  split; [reflexivity|]. split; [reflexivity|]. split; [exact Hlistener|].
  split; [exact Hdv | exact Hfresh].
Defined.
